(** * find_top_agents: the filter, classifier, query fetcher and aggregator

    A shallow embedding of [find_top_agents.py].  Python [str] values are
    Rocq strings, Python [int] values are [Z], dictionaries keyed by strings
    are [gmap string _], and the effects of the script (the search provider
    and the HTTP session) are threaded explicitly as a world state. *)

From Stdlib Require Import ZArith String Ascii.
From stdpp Require Import base option list strings gmap sorting.

Local Open Scope string_scope.
Local Open Scope list_scope.
Local Open Scope Z_scope.

(** ** Python string primitives used by the script *)

Module PyStr.

(** [s.startswith(p)] *)
Fixpoint startswith (s p : string) {struct p} : bool :=
  match p, s with
  | EmptyString, _ => true
  | String _ _, EmptyString => false
  | String c p', String d s' => if Ascii.eqb c d then startswith s' p' else false
  end.

(** [needle in hay] on strings: [needle] occurs at some offset of [hay]. *)
Fixpoint contains (needle hay : string) : bool :=
  startswith hay needle ||
  match hay with
  | EmptyString => false
  | String _ rest => contains needle rest
  end.

(** [any(x in u for x in xs)] *)
Definition any_in (xs : list string) (u : string) : bool :=
  existsb (fun x => contains x u) xs.

(** The propositional reading of [in]. *)
Definition occurs_in (needle hay : string) : Prop :=
  ∃ pre post, hay = pre +:+ needle +:+ post.

(** [str.lower] on the ASCII range; other characters are left alone. *)
Definition lower_char (c : ascii) : ascii :=
  let n := N_of_ascii c in
  if ((65 <=? n) && (n <=? 90))%N then ascii_of_N (n + 32) else c.

Fixpoint ascii_lower (s : string) : string :=
  match s with
  | EmptyString => EmptyString
  | String c rest => String (lower_char c) (ascii_lower rest)
  end.

(** [str.isspace] on the ASCII range: tab, line feed, vertical tab, form
    feed, carriage return, the four separators 28..31 and the space. *)
Definition isspace (c : ascii) : bool :=
  let n := N_of_ascii c in
  (((9 <=? n) && (n <=? 13)) || ((28 <=? n) && (n <=? 32)))%N.

Fixpoint lstrip (s : string) : string :=
  match s with
  | EmptyString => EmptyString
  | String c rest => if isspace c then lstrip rest else s
  end.

Definition rstrip (s : string) : string :=
  String.rev (lstrip (String.rev s)).

(** [str.strip()] with no argument, on the ASCII range. *)
Definition ascii_strip (s : string) : string := rstrip (lstrip s).

End PyStr.

(** ** Configuration and constants *)

(** [BANNED_KEYWORDS] is a Python set literal; it is only ever consumed by
    [any], whose result does not depend on the iteration order, so the
    elements are listed in source order. *)
Definition BANNED_KEYWORDS : list string :=
  [ "zillow"; "trulia"; "redfin"; "realtor.com"; "usnews"; "city-data";
    "yelp"; "fastexpert"; "facebook"; "instagram"; "linkedin"; "twitter";
    "x.com"; "reddit"; "fivestarprofessional"; "realtrends"; "houzeo";
    "effectiveagents"; "nextdoor"; "expertise"; "homelight"; "homeguide";
    "nar.realtor"; "youtube"; "thumbtack"; "topagentmagazine"; "yellowpages";
    "triple"; "angi"; "listwithclever"; "tiktok"; "movoto"; ".org";
    "experience.com"; "bankrate"; "expertise.com"; "glassdoor";
    "biggerpockets"; "agentproto"; "landsearch"; "coldwellbanker"; "remax";
    "sothebys"; "bhhs"; "kellerwilliams"; "kw.com"; "century21"; "c21";
    "bhgre"; "era.com"; "elliman"; "compass"; "exprealty"; "corcoran";
    "weichert"; "howardhanna"; "longandfoster"; "realtyexecutives";
    "realtyonegroup"; "homesmart"; "exitrealty"; "ratemyagent"; "sulekha";
    "bizjournals"; "/news/"; "/money/"; "/business/"; "seolium";
    "agentpronto"; "upnest"; "housecashin" ].

Definition AGENT_INDICATORS : list string :=
  [ "realtor"; "real estate agent"; "team"; "realty"; "broker" ].

Definition GOOGLE_MAPS : string := "google.com/maps".

(** ** Domain filter and agent-likeness test *)

Section Filter.

(** [str.lower], a builtin of the host language. *)
Variable lower : string → string.

Definition is_banned_url (url : string) : bool :=
  let u := lower url in
  if PyStr.contains GOOGLE_MAPS u then true
  else PyStr.any_in BANNED_KEYWORDS u.

Definition looks_like_agent (title : string) : bool :=
  let lower_title := lower title in
  PyStr.any_in AGENT_INDICATORS lower_title.

End Filter.

(** ** The parse tree of the HTML parser collaborator

    [BeautifulSoup(html, "html.parser")] yields a tree of page elements: text
    nodes and tags carrying a name, an attribute dictionary and their child
    elements.  Only the three queries of the script are embedded: [find] (the
    first matching tag in document order), [Tag.get] and [Tag.string]. *)

Module Bs4.

#[warnings="-register-all"]
Inductive PageElement : Type :=
| NavigableString (text : string)
| Tag (name : string) (attrs : gmap string string)
      (contents : list PageElement).

(** The soup object is the document root; [find] searches its descendants. *)
Definition Soup : Type := list PageElement.

(** First element satisfying [p], in document (pre-order) order. *)
Fixpoint find_element (p : PageElement → bool) (e : PageElement)
  : option PageElement :=
  if p e then Some e
  else match e with
       | NavigableString _ => None
       | Tag _ _ contents =>
           (fix descend (l : list PageElement) : option PageElement :=
              match l with
              | [] => None
              | c :: l' =>
                  match find_element p c with
                  | Some r => Some r
                  | None => descend l'
                  end
              end) contents
       end.

Fixpoint find (p : PageElement → bool) (soup : Soup) : option PageElement :=
  match soup with
  | [] => None
  | c :: rest =>
      match find_element p c with
      | Some r => Some r
      | None => find p rest
      end
  end.

(** [soup.find(name, attrs={attr: value})] *)
Definition named_with (name attr value : string) (e : PageElement) : bool :=
  match e with
  | NavigableString _ => false
  | Tag n attrs _ =>
      bool_decide (n = name) && bool_decide (attrs !! attr = Some value)
  end.

(** [soup.title], that is [soup.find("title")] *)
Definition named (name : string) (e : PageElement) : bool :=
  match e with
  | NavigableString _ => false
  | Tag n _ _ => bool_decide (n = name)
  end.

(** [tag.get(attr)] *)
Definition get (attr : string) (e : PageElement) : option string :=
  match e with
  | NavigableString _ => None
  | Tag _ attrs _ => attrs !! attr
  end.

(** [tag.string]: the single text child, looking through single-child
    tags; [None] when a tag has no child or more than one. *)
Fixpoint string_of (e : PageElement) : option string :=
  match e with
  | NavigableString s => Some s
  | Tag _ _ [c] => string_of c
  | Tag _ _ _ => None
  end.

End Bs4.

(** ** Data model *)

Module AgentEntry.
Record t : Type := mk { name : string; url : string; rank : Z }.

(** [entry.rank = r], an in-place update of one field *)
Definition set_rank (r : Z) (e : t) : t :=
  {| name := name e; url := url e; rank := r |}.
End AgentEntry.

Module AggregatedEntry.
Record t : Type := mk {
  name : string;
  url : string;
  total_score : Z;
  best_rank : Z;
  worst_rank : Z;
  appearance_count : Z
}.
End AggregatedEntry.

(** The response object of the HTTP session. *)
Record Response : Type := { status_code : Z; text : string }.

(** [resp.raise_for_status()] raises exactly on the 4xx and 5xx codes. *)
Definition raise_for_status (resp : Response) : option unit :=
  if (400 <=? status_code resp) && (status_code resp <? 600) then None
  else Some tt.

(** ** Python builtins on sequences of integers *)

Module PyInt.

Definition sum (l : list Z) : Z := fold_left Z.add l 0.

(** [min(l)]; [None] stands for the [ValueError] on an empty sequence. *)
Definition min (l : list Z) : option Z :=
  match l with
  | [] => None
  | x :: rest => Some (fold_left Z.min rest x)
  end.

Definition max (l : list Z) : option Z :=
  match l with
  | [] => None
  | x :: rest => Some (fold_left Z.max rest x)
  end.

(** [min(l, key=key)]: the first element whose key is least. *)
Definition min_by {A} (key : A → Z) (l : list A) : option A :=
  match l with
  | [] => None
  | x :: rest =>
      Some (fold_left (fun best e => if key e <? key best then e else best)
                      rest x)
  end.

(** [sorted(l, key=key)] is a stable sort; the stable ascending
    arrangement of a list is unique, so it is given by stable insertion. *)
Fixpoint insert_by {A} (key : A → Z) (x : A) (l : list A) : list A :=
  match l with
  | [] => [x]
  | y :: rest =>
      if key x <=? key y then x :: y :: rest
      else y :: insert_by key x rest
  end.

Fixpoint sorted {A} (key : A → Z) (l : list A) : list A :=
  match l with
  | [] => []
  | x :: rest => insert_by key x (sorted key rest)
  end.

(** [enumerate(l, start=start)] *)
Fixpoint enumerate {A} (start : Z) (l : list A) : list (Z * A) :=
  match l with
  | [] => []
  | x :: rest => (start, x) :: enumerate (start + 1) rest
  end.

End PyInt.

(** ** The pipeline *)

Section Pipeline.

(** State of the outside world (the search provider and the web), threaded
    through every call that touches it. *)
Context {World : Type}.

(** Builtins of the host language: [str.lower], [str.strip] and the
    iteration order of a [set]. *)
Variable lower : string → string.
Variable strip : string → string.
Variable set_iter : gset string → list string.

(** Collaborators.  [search query region num_results sleep_interval] and
    [session_get url timeout] answer [None] when they raise.  The parser
    is total here: this is the pipeline on pages that the parser accepts,
    and [Raising] below adds the exception of a rejected page. *)
Variable search :
  string → string → Z → Z → World → option (list string) * World.
Variable session_get : string → Z → World → option Response * World.
Variable BeautifulSoup : string → Bs4.Soup.

(** *** Page classifier *)

Definition extract_meta_title (html : string) : option string :=
  let soup := BeautifulSoup html in
  let og := Bs4.find (Bs4.named_with "meta" "property" "og:title") soup in
  match og ≫= Bs4.get "content" with
  | Some (String _ _ as content) => Some (strip content)
  | _ =>
      let meta := Bs4.find (Bs4.named_with "meta" "name" "title") soup in
      match meta ≫= Bs4.get "content" with
      | Some (String _ _ as content) => Some (strip content)
      | _ =>
          match Bs4.find (Bs4.named "title") soup ≫= Bs4.string_of with
          | Some (String _ _ as s) => Some (strip s)
          | _ => None
          end
      end
  end.

(** *** Query fetcher *)

Definition get_search_results (query : string) (num : Z) (w : World)
  : list string * World :=
  match search query "us" num 2 w with
  | (Some urls, w') => (urls, w')
  | (None, w') => ([], w')
  end.

(** [session.get(url, timeout=10)] followed by [raise_for_status()]; [None]
    when either raises. *)
Definition try_fetch (url : string) (w : World) : option Response * World :=
  match session_get url 10 w with
  | (Some resp, w') => (raise_for_status resp ≫= λ _, Some resp, w')
  | (None, w') => (None, w')
  end.

(** The dictionary update at the end of the loop body. *)
Definition upsert (entries : gmap string AgentEntry.t)
    (title url : string) (rank : Z) : gmap string AgentEntry.t :=
  let key := lower title in
  match entries !! key with
  | Some e =>
      <[key := AgentEntry.set_rank (Z.min (AgentEntry.rank e) rank) e]>
        entries
  | None => <[key := AgentEntry.mk title url rank]> entries
  end.

(** The [for rank, url in ...] loop, from the dictionary built so far. *)
Fixpoint fetch_loop (items : list (Z * string))
    (entries : gmap string AgentEntry.t) (w : World)
  : gmap string AgentEntry.t * World :=
  match items with
  | [] => (entries, w)
  | (rank, url) :: rest =>
      if is_banned_url lower url then fetch_loop rest entries w
      else
        match try_fetch url w with
        | (None, w') => fetch_loop rest entries w'
        | (Some resp, w') =>
            match extract_meta_title (text resp) with
            | Some (String _ _ as title) =>
                if looks_like_agent lower title
                then fetch_loop rest (upsert entries title url rank) w'
                else fetch_loop rest entries w'
            | _ => fetch_loop rest entries w'
            end
        end
  end.

Definition fetch_agents_for_query (query : string) (max_results : Z)
    (w : World) : gmap string AgentEntry.t * World :=
  let (urls, w') := get_search_results query max_results w in
  fetch_loop (PyInt.enumerate 1 urls) ∅ w'.

(** *** Aggregator *)

(** The inner [for qr in query_results] loop: the rank vector and the
    appearance counter. *)
Fixpoint collect_ranks (key : string) (penalty : Z)
    (query_results : list (gmap string AgentEntry.t))
    (ranks : list Z) (appearances : Z) : list Z * Z :=
  match query_results with
  | [] => (ranks, appearances)
  | qr :: rest =>
      match qr !! key with
      | Some e =>
          collect_ranks key penalty rest
            (ranks ++ [AgentEntry.rank e]) (appearances + 1)
      | None => collect_ranks key penalty rest (ranks ++ [penalty]) appearances
      end
  end.

(** The body of the [for key in all_keys] loop; [None] when a builtin
    raises on an empty sequence. *)
Definition aggregate_key (query_results : list (gmap string AgentEntry.t))
    (penalty : Z) (key : string) : option AggregatedEntry.t :=
  let '(ranks, appearances) := collect_ranks key penalty query_results [] 0 in
  let total := PyInt.sum ranks in
  best ← PyInt.min ranks;
  worst ← PyInt.max ranks;
  best_entry ← PyInt.min_by AgentEntry.rank
                 (omap (λ qr : gmap string AgentEntry.t, qr !! key)
                       query_results);
  Some (AggregatedEntry.mk (AgentEntry.name best_entry)
          (AgentEntry.url best_entry) total best worst appearances).

Fixpoint aggregate_loop (query_results : list (gmap string AgentEntry.t))
    (penalty : Z) (keys : list string) (aggregated : list AggregatedEntry.t)
  : option (list AggregatedEntry.t) :=
  match keys with
  | [] => Some aggregated
  | key :: rest =>
      e ← aggregate_key query_results penalty key;
      aggregate_loop query_results penalty rest (aggregated ++ [e])
  end.

(** [set().union] of all the dictionaries: the union of their key sets *)
Definition all_keys (query_results : list (gmap string AgentEntry.t))
  : gset string :=
  ⋃ (dom <$> query_results).

Definition aggregate_entries
    (query_results : list (gmap string AgentEntry.t)) (penalty : Z)
  : option (list AggregatedEntry.t) :=
  aggregated ← aggregate_loop query_results penalty
                 (set_iter (all_keys query_results)) [];
  Some (PyInt.sorted AggregatedEntry.total_score aggregated).

(** *** Orchestration: the part of [main] that builds the ranked list *)

Definition queries (area : string) : list string :=
  [ "best realtors in " +:+ area;
    "best real estate agents in " +:+ area;
    "best real estate agents " +:+ area;
    "best realtor in " +:+ area;
    "top realtors in " +:+ area;
    "top real estate agents in " +:+ area;
    "top real estate agents " +:+ area;
    "top " +:+ area +:+ " realtors" ].

(** [[fetch_agents_for_query(session, q, results) for q in queries]] *)
Fixpoint fetch_all (qs : list string) (results : Z) (w : World)
  : list (gmap string AgentEntry.t) * World :=
  match qs with
  | [] => ([], w)
  | q :: rest =>
      let (qr, w') := fetch_agents_for_query q results w in
      let (qrs, w'') := fetch_all rest results w' in
      (qr :: qrs, w'')
  end.

Definition main_aggregated (area_arg : string) (results : Z) (w : World)
  : option (list AggregatedEntry.t) * World :=
  let area := strip area_arg in
  let penalty := results + 1 in
  let (query_results, w') := fetch_all (queries area) results w in
  (aggregate_entries query_results penalty, w').

(** *** Declarative readings used in the statements below *)

(** The results of one query that reach the dictionary update, in order:
    (rank, url, title) for every result that is not banned, is fetched
    and carries a non-empty agent-like title. *)
Fixpoint classified (items : list (Z * string)) (w : World)
  : list (Z * string * string) :=
  match items with
  | [] => []
  | (rank, url) :: rest =>
      if is_banned_url lower url then classified rest w
      else
        match try_fetch url w with
        | (None, w') => classified rest w'
        | (Some resp, w') =>
            match extract_meta_title (text resp) with
            | Some (String _ _ as title) =>
                if looks_like_agent lower title
                then (rank, url, title) :: classified rest w'
                else classified rest w'
            | _ => classified rest w'
            end
        end
  end.

(** The classified results of a whole query. *)
Definition hits_of (query : string) (max_results : Z) (w : World)
  : list (Z * string * string) :=
  let (urls, w') := get_search_results query max_results w in
  classified (PyInt.enumerate 1 urls) w'.

(** The classified results whose case-folded title is [key]. *)
Definition hits_for (key : string) (hits : list (Z * string * string))
  : list (Z * string * string) :=
  filter (λ h, lower h.2 = key) hits.

(** The dictionary updates of a sequence of classified results. *)
Definition upsert_all (entries : gmap string AgentEntry.t)
    (hits : list (Z * string * string)) : gmap string AgentEntry.t :=
  fold_left (λ m h, upsert m h.2 h.1.2 h.1.1) hits entries.

(** The three places a title is looked for, in priority order, each with
    the raw text found there. *)
Definition title_sources (soup : Bs4.Soup) : list (option string) :=
  [ Bs4.find (Bs4.named_with "meta" "property" "og:title") soup
      ≫= Bs4.get "content";
    Bs4.find (Bs4.named_with "meta" "name" "title") soup
      ≫= Bs4.get "content";
    Bs4.find (Bs4.named "title") soup ≫= Bs4.string_of ].

End Pipeline.

(** ** The pipeline with a parser that can reject a page

    The call [extract_meta_title(resp.text)] of the query loop stands outside
    the [try] block, and [BeautifulSoup(html, "html.parser")] raises when the
    parser rejects the markup.  Here the parser answers [None] in that case
    and the exception leaves the loop, the query and the run.  With a parser
    that accepts every page this is the pipeline above. *)

Module Raising.

Section Pipeline.

Context {World : Type}.
Variable lower : string → string.
Variable strip : string → string.
Variable set_iter : gset string → list string.
Variable search :
  string → string → Z → Z → World → option (list string) * World.
Variable session_get : string → Z → World → option Response * World.

(** [BeautifulSoup(html, "html.parser")]; [None] when it raises. *)
Variable BeautifulSoup : string → option Bs4.Soup.

(** The outer [None] is the exception of the parser, the inner one the
    [None] that the function returns. *)
Definition extract_meta_title (html : string) : option (option string) :=
  match BeautifulSoup html with
  | None => None
  | Some soup => Some (extract_meta_title strip (λ _, soup) html)
  end.

(** The query loop; the first component is [None] when an exception left
    the loop. *)
Fixpoint fetch_loop (items : list (Z * string))
    (entries : gmap string AgentEntry.t) (w : World)
  : option (gmap string AgentEntry.t) * World :=
  match items with
  | [] => (Some entries, w)
  | (rank, url) :: rest =>
      if is_banned_url lower url then fetch_loop rest entries w
      else
        match try_fetch session_get url w with
        | (None, w') => fetch_loop rest entries w'
        | (Some resp, w') =>
            match extract_meta_title (text resp) with
            | None => (None, w')
            | Some (Some (String _ _ as title)) =>
                if looks_like_agent lower title
                then fetch_loop rest (upsert lower entries title url rank) w'
                else fetch_loop rest entries w'
            | Some _ => fetch_loop rest entries w'
            end
        end
  end.

Definition fetch_agents_for_query (query : string) (max_results : Z)
    (w : World) : option (gmap string AgentEntry.t) * World :=
  let (urls, w') := get_search_results search query max_results w in
  fetch_loop (PyInt.enumerate 1 urls) ∅ w'.

(** The list comprehension of [main]: an exception in one query ends it. *)
Fixpoint fetch_all (qs : list string) (results : Z) (w : World)
  : option (list (gmap string AgentEntry.t)) * World :=
  match qs with
  | [] => (Some [], w)
  | q :: rest =>
      match fetch_agents_for_query q results w with
      | (None, w') => (None, w')
      | (Some qr, w') =>
          match fetch_all rest results w' with
          | (None, w'') => (None, w'')
          | (Some qrs, w'') => (Some (qr :: qrs), w'')
          end
      end
  end.

Definition main_aggregated (area_arg : string) (results : Z) (w : World)
  : option (list AggregatedEntry.t) * World :=
  let area := strip area_arg in
  let penalty := results + 1 in
  match fetch_all (queries area) results w with
  | (None, w') => (None, w')
  | (Some query_results, w') =>
      (aggregate_entries set_iter query_results penalty, w')
  end.

End Pipeline.

End Raising.

(** The ranks of a sequence of classified results. *)
Definition ranks_of (hits : list (Z * string * string)) : list Z :=
  (λ h, h.1.1) <$> hits.

(** The first source that is present with a non-empty raw text. *)
Fixpoint first_nonempty (sources : list (option string)) : option string :=
  match sources with
  | [] => None
  | Some (String _ _ as s) :: _ => Some s
  | _ :: rest => first_nonempty rest
  end.

(** A set iterator visits every element exactly once, in some order. *)
Definition iterates (set_iter : gset string → list string) : Prop :=
  ∀ X : gset string, set_iter X ≡ₚ elements X.

(** What one query contributes to the score of [key]: the stored rank when
    the name is present, the penalty otherwise. *)
Definition query_value (penalty : Z) (key : string)
    (qr : gmap string AgentEntry.t) : Z :=
  match qr !! key with
  | Some e => AgentEntry.rank e
  | None => penalty
  end.

Fixpoint total_of (values : list Z) : Z :=
  match values with
  | [] => 0
  | v :: rest => v + total_of rest
  end.

Definition least_of (m : Z) (values : list Z) : Prop :=
  m ∈ values ∧ ∀ v, v ∈ values → m ≤ v.

Definition greatest_of (m : Z) (values : list Z) : Prop :=
  m ∈ values ∧ ∀ v, v ∈ values → v ≤ m.

(** The number of queries whose dictionary has [key]. *)
Definition queries_containing (key : string)
    (query_results : list (gmap string AgentEntry.t)) : Z :=
  Z.of_nat (length (filter (λ qr, is_Some (qr !! key)) query_results)).

(** The scoring invariants of an aggregated entry for [key]. *)
Definition scored (query_results : list (gmap string AgentEntry.t))
    (penalty : Z) (key : string) (a : AggregatedEntry.t) : Prop :=
  let values := query_value penalty key <$> query_results in
  AggregatedEntry.total_score a = total_of values ∧
  least_of (AggregatedEntry.best_rank a) values ∧
  greatest_of (AggregatedEntry.worst_rank a) values ∧
  AggregatedEntry.appearance_count a = queries_containing key query_results.

(** Ascending by [total_score]: adjacent entries are in order, and an entry
    with a strictly smaller score stands at a smaller index. *)
Definition ascending (out : list AggregatedEntry.t) : Prop :=
  (∀ (i : nat) a b, out !! i = Some a → out !! S i = Some b →
     AggregatedEntry.total_score a ≤ AggregatedEntry.total_score b) ∧
  (∀ (i j : nat) a b, out !! i = Some a → out !! j = Some b →
     AggregatedEntry.total_score a < AggregatedEntry.total_score b →
     (i < j)%nat).

(** The order that [sorted] establishes on the keys. *)
Definition key_le {A} (key : A → Z) (a b : A) : Prop := key a ≤ key b.

(** Ranks are positions in the raw result sequence [raw]: the invariant of
    the query loop, [bound] being the number of results already visited. *)
Definition positioned (raw : list string) (bound : Z)
    (entries : gmap string AgentEntry.t) : Prop :=
  ∀ key e, entries !! key = Some e →
    1 ≤ AgentEntry.rank e ≤ bound ∧
    raw !! Z.to_nat (AgentEntry.rank e - 1) = Some (AgentEntry.url e).

(** ** Sample inputs *)

(** A page with a blank Open-Graph title next to a usable title element,
    and the tree the parser builds for it. *)
Definition html_blank_og : string :=
  "<meta property='og:title' content='   '><title>Jane Doe Realty</title>".

Definition page_blank_og : Bs4.Soup :=
  [ Bs4.Tag "meta" {[ "property" := "og:title"; "content" := "   " ]} [];
    Bs4.Tag "title" ∅ [Bs4.NavigableString "Jane Doe Realty"] ].

(** A page with both an Open-Graph title and a title element, and its
    tree. *)
Definition html_og_and_title : string :=
  "<head><meta property='og:title' content=' Jane Doe Team '><title>Welcome</title></head>".

Definition page_og_and_title : Bs4.Soup :=
  [ Bs4.Tag "head" ∅
      [ Bs4.Tag "meta"
          {[ "property" := "og:title"; "content" := " Jane Doe Team " ]} [];
        Bs4.Tag "title" ∅ [Bs4.NavigableString "Welcome"] ] ].

(** The parser on the two sample pages. *)
Definition sample_parser (html : string) : Bs4.Soup :=
  if decide (html = html_blank_og) then page_blank_og
  else if decide (html = html_og_and_title) then page_og_and_title
  else [].

(** Three queries in which one name is found at rank 3, not at all, and at
    rank 7. *)
Definition three_queries : list (gmap string AgentEntry.t) :=
  [ {[ "jane doe team" :=
         AgentEntry.mk "Jane Doe Team" "https://janedoe.example/" 3 ]};
    ∅;
    {[ "jane doe team" :=
         AgentEntry.mk "JANE DOE TEAM" "https://janedoe.example/team" 7 ]} ].

(** Two queries, two names: one at ranks 20 and 20, the other at rank 4 and
    absent. *)
Definition two_names : list (gmap string AgentEntry.t) :=
  [ {[ "smith realty" :=
         AgentEntry.mk "Smith Realty" "https://smith.example/" 4;
       "jane doe team" :=
         AgentEntry.mk "Jane Doe Team" "https://janedoe.example/" 20 ]};
    {[ "jane doe team" :=
         AgentEntry.mk "Jane Doe Team" "https://janedoe.example/" 20 ]} ].

(** One name found once, at rank 1, among three queries. *)
Definition one_of_three : list (gmap string AgentEntry.t) :=
  [ {[ "jane doe team" :=
         AgentEntry.mk "Jane Doe Team" "https://janedoe.example/" 1 ]};
    ∅; ∅ ].

(** A small web.  The world state counts the requests made so far.  One
    query has six results: an aggregator, an agent page, a host that is
    down, a listings page, a second page of the same agent, and a page
    answered with status 404; every other query makes the provider fail. *)
Module Demo.

Definition search (query region : string) (num_results sleep_interval : Z)
  (w : nat) : option (list string) * nat :=
if decide (query = "best realtors in springfield")
then (Some [ "https://www.zillow.com/springfield/";
             "https://janedoe.example/";
             "https://down.example/";
             "https://listings.example/";
             "https://janedoe.example/team";
             "https://gone.example/" ], S w)
else (None, S w).

Definition session_get (url : string) (timeout : Z) (w : nat)
: option Response * nat :=
if decide (url = "https://janedoe.example/")
then (Some {| status_code := 200; text := "home" |}, S w)
else if decide (url = "https://janedoe.example/team")
then (Some {| status_code := 200; text := "team" |}, S w)
else if decide (url = "https://listings.example/")
then (Some {| status_code := 200; text := "listings" |}, S w)
else if decide (url = "https://gone.example/")
then (Some {| status_code := 404; text := "team" |}, S w)
else (None, S w).

Definition BeautifulSoup (html : string) : Bs4.Soup :=
if decide (html = "home") then page_og_and_title
else if decide (html = "team")
then [ Bs4.Tag "title" ∅ [Bs4.NavigableString "JANE DOE TEAM"] ]
else if decide (html = "listings")
then [ Bs4.Tag "title" ∅
         [Bs4.NavigableString "Homes for Sale in Springfield"] ]
else [].

Definition loop :=
fetch_loop PyStr.ascii_lower PyStr.ascii_strip session_get BeautifulSoup.

Definition fetch :=
fetch_agents_for_query PyStr.ascii_lower PyStr.ascii_strip search
  session_get BeautifulSoup.

Definition run :=
main_aggregated PyStr.ascii_lower PyStr.ascii_strip elements search
  session_get BeautifulSoup.

End Demo.

(** A page whose first Open-Graph title has no content and whose second
    one has, with a title element. *)
Definition html_two_og : string :=
  "<meta property='og:title' content=''><meta property='og:title' content='Jane Doe Team'><title>Welcome</title>".

Definition page_two_og : Bs4.Soup :=
  [ Bs4.Tag "meta" {[ "property" := "og:title"; "content" := EmptyString ]} [];
    Bs4.Tag "meta"
      {[ "property" := "og:title"; "content" := "Jane Doe Team" ]} [];
    Bs4.Tag "title" ∅ [Bs4.NavigableString "Welcome"] ].

Definition two_og_parser (html : string) : Bs4.Soup :=
  if decide (html = html_two_og) then page_two_og else [].

(** The small web again, with one more result: a page whose markup the
    parser rejects.  No search fails for the first query. *)
Module Rejecting.

Definition html_rejected : string := "<html><![x[y]]></html>".

Definition search (query region : string) (num_results sleep_interval : Z)
    (w : nat) : option (list string) * nat :=
  if decide (query = "best realtors in springfield")
  then (Some [ "https://janedoe.example/";
               "https://broken.example/";
               "https://janedoe.example/team" ], S w)
  else (None, S w).

Definition session_get (url : string) (timeout : Z) (w : nat)
  : option Response * nat :=
  if decide (url = "https://broken.example/")
  then (Some {| status_code := 200; text := html_rejected |}, S w)
  else Demo.session_get url timeout w.

Definition BeautifulSoup (html : string) : option Bs4.Soup :=
  if decide (html = html_rejected) then None
  else Some (Demo.BeautifulSoup html).

Definition fetch :=
  Raising.fetch_agents_for_query PyStr.ascii_lower PyStr.ascii_strip search
    session_get BeautifulSoup.

Definition run :=
  Raising.main_aggregated PyStr.ascii_lower PyStr.ascii_strip elements search
    session_get BeautifulSoup.

(** The same web behind a parser that accepts every page. *)
Definition run_accepting :=
  Raising.main_aggregated PyStr.ascii_lower PyStr.ascii_strip elements
    Demo.search Demo.session_get (λ html, Some (Demo.BeautifulSoup html)).

(** A provider that fails on every query. *)
Definition search_down (query region : string)
    (num_results sleep_interval : Z) (w : nat)
  : option (list string) * nat := (None, S w).

Definition run_search_down :=
  Raising.main_aggregated PyStr.ascii_lower PyStr.ascii_strip elements
    search_down session_get BeautifulSoup.

End Rejecting.

(** ** Reporting: the end of [main] *)

Module PyList.

(** [l[:n]]: a negative bound counts from the end, and the bound is clamped
    to the length of the list. *)
Definition slice_to {A} (n : Z) (l : list A) : list A :=
  let len := Z.of_nat (length l) in
  let stop := if n <? 0 then Z.max (n + len) 0 else Z.min n len in
  take (Z.to_nat stop) l.

End PyList.

(** [n = min(args.top, len(aggregated))], the count printed in the header. *)
Definition report_count (top : Z) (aggregated : list AggregatedEntry.t) : Z :=
  Z.min top (Z.of_nat (length aggregated)).

(** [enumerate(aggregated[:n], start=1)], the numbered rows that are
    printed. *)
Definition report_rows (top : Z) (aggregated : list AggregatedEntry.t)
  : list (Z * AggregatedEntry.t) :=
  PyInt.enumerate 1 (PyList.slice_to (report_count top aggregated) aggregated).

(** ** Further readings used in the statements *)

(** The entries stored for [key], in query order. *)
Definition entries_for (key : string)
    (query_results : list (gmap string AgentEntry.t)) : list AgentEntry.t :=
  omap (λ qr : gmap string AgentEntry.t, qr !! key) query_results.

(** Strictly increasing rank, on classified results. *)
Definition rank_lt (h1 h2 : Z * string * string) : Prop := h1.1.1 < h2.1.1.

(** The search provider returns at most [results] urls when it is asked for
    that many, as the script asks it. *)
Definition honours_limit {World : Type}
    (search : string → string → Z → Z → World
              → option (list string) * World) (results : Z) : Prop :=
  ∀ query w urls w',
    search query "us" results 2 w = (Some urls, w') →
    Z.of_nat (length urls) ≤ results.

(** The four scores of an aggregated entry. *)
Definition scores_of (a : AggregatedEntry.t) : Z * Z * Z * Z :=
  (AggregatedEntry.total_score a, AggregatedEntry.best_rank a,
   AggregatedEntry.worst_rank a, AggregatedEntry.appearance_count a).

Section Requests.

Context {World : Type}.
Variable lower : string → string.
Variable session_get : string → Z → World → option Response * World.


(** The world after requesting each of [urls] in turn. *)
Definition session_after (urls : list string) (w : World) : World :=
  fold_left (λ w url, (session_get url 10 w).2) urls w.

End Requests.

(** Three more sample pages: a title meta attribute beside an Open-Graph
    title without content, a bare title element, and an empty title
    element. *)
Definition html_meta_title : string :=
  "<meta property='og:title' content=''><meta name='title' content='Smith Realty '><title>Home</title>".

Definition page_meta_title : Bs4.Soup :=
  [ Bs4.Tag "meta" {[ "property" := "og:title"; "content" := EmptyString ]} [];
    Bs4.Tag "meta" {[ "name" := "title"; "content" := "Smith Realty " ]} [];
    Bs4.Tag "title" ∅ [Bs4.NavigableString "Home"] ].

Definition html_plain_title : string :=
  "<html><head><title> Jane Doe, Broker </title></head></html>".

Definition page_plain_title : Bs4.Soup :=
  [ Bs4.Tag "html" ∅
      [ Bs4.Tag "head" ∅
          [ Bs4.Tag "title" ∅ [Bs4.NavigableString " Jane Doe, Broker "] ] ] ].

Definition html_empty_title : string :=
  "<html><head><title></title></head><body><h1>Jane Doe Realty</h1></body></html>".

Definition page_empty_title : Bs4.Soup :=
  [ Bs4.Tag "html" ∅
      [ Bs4.Tag "head" ∅ [ Bs4.Tag "title" ∅ [] ];
        Bs4.Tag "body" ∅
          [ Bs4.Tag "h1" ∅ [Bs4.NavigableString "Jane Doe Realty"] ] ] ].

Definition fallback_parser (html : string) : Bs4.Soup :=
  if decide (html = html_meta_title) then page_meta_title
  else if decide (html = html_plain_title) then page_plain_title
  else if decide (html = html_empty_title) then page_empty_title
  else [].

(** ** Facts about the string primitives *)

Module PyStrFacts.
Import PyStr.

Lemma startswith_app s p : startswith (p +:+ s) p = true.
Proof.
  induction p as [|c p IH]; simpl; [done|].
  by rewrite Ascii.eqb_refl.
Qed.

Lemma startswith_split s p :
  startswith s p = true → ∃ post, s = p +:+ post.
Proof.
  revert s. induction p as [|c p IH]; intros s; simpl.
  - intros _. by exists s.
  - destruct s as [|d s]; [done|].
    destruct (Ascii.eqb c d) eqn:E; [|done].
    apply Ascii.eqb_eq in E as ->.
    intros [post ->]%IH. by exists post.
Qed.

Lemma contains_here needle hay :
  startswith hay needle = true → contains needle hay = true.
Proof. intros H. destruct hay; simpl; by rewrite H. Qed.

Lemma contains_occurs needle hay :
  contains needle hay = true ↔ occurs_in needle hay.
Proof.
  split.
  - induction hay as [|c hay IH]; simpl.
    + rewrite orb_false_r. intros [post ->]%startswith_split.
      by exists EmptyString, post.
    + intros [Hp|Hc]%orb_true_iff.
      * apply startswith_split in Hp as [post ->]. by exists EmptyString, post.
      * destruct (IH Hc) as (pre & post & ->).
        by exists (String c pre), post.
  - intros (pre & post & ->).
    induction pre as [|c pre IH].
    + apply contains_here. apply (startswith_app post needle).
    + simpl. rewrite IH. apply orb_true_r.
Qed.

Lemma any_in_occurs xs u :
  any_in xs u = true ↔ ∃ x, x ∈ xs ∧ occurs_in x u.
Proof.
  unfold any_in. rewrite existsb_exists. split.
  - intros (x & Hin & Hc). exists x. split.
    + by apply list_elem_of_In.
    + by apply contains_occurs.
  - intros (x & Hin & Hc). exists x. split.
    + by apply list_elem_of_In.
    + by apply contains_occurs.
Qed.

End PyStrFacts.

(** ** Domain filter *)

Section FilterFacts.
Variable lower : string → string.

Lemma is_banned_url_unfold url :
  is_banned_url lower url =
  PyStr.contains GOOGLE_MAPS (lower url)
  || PyStr.any_in BANNED_KEYWORDS (lower url).
Proof. unfold is_banned_url. by destruct (PyStr.contains _ _). Qed.

Lemma is_banned_url_true url :
  is_banned_url lower url = true ↔
  PyStr.occurs_in GOOGLE_MAPS (lower url) ∨
  ∃ keyword, keyword ∈ BANNED_KEYWORDS ∧
             PyStr.occurs_in keyword (lower url).
Proof.
  rewrite is_banned_url_unfold, orb_true_iff.
  by rewrite PyStrFacts.contains_occurs, PyStrFacts.any_in_occurs.
Qed.

(** C7. A URL is banned exactly when its lower-casing contains the maps
    marker or one of the configured banned substrings; the test is a total
    boolean function, so every other URL is answered [false]. *)
Theorem is_banned_url_iff url :
  (is_banned_url lower url = true ↔
     PyStr.occurs_in GOOGLE_MAPS (lower url) ∨
     ∃ keyword, keyword ∈ BANNED_KEYWORDS ∧
                PyStr.occurs_in keyword (lower url)) ∧
  (is_banned_url lower url = false ↔
     ¬ PyStr.occurs_in GOOGLE_MAPS (lower url) ∧
     ∀ keyword, keyword ∈ BANNED_KEYWORDS →
                ¬ PyStr.occurs_in keyword (lower url)).
Proof.
  split; [apply is_banned_url_true|].
  rewrite <- not_true_iff_false, is_banned_url_true. split.
  - intros Hn. split; [tauto|]. intros k Hk Hocc. apply Hn. eauto.
  - intros [Hm Hk] [?|(k & ? & ?)]; [tauto|]. by eapply Hk.
Qed.

(** C10. Every URL whose lower-casing contains ".org" is banned. *)
Theorem dot_org_is_banned url :
  PyStr.occurs_in ".org" (lower url) → is_banned_url lower url = true.
Proof.
  intros Hocc. apply is_banned_url_true. right. exists ".org".
  split; [|done]. unfold BANNED_KEYWORDS. set_solver.
Qed.

End FilterFacts.

Lemma dot_org_is_banned_witness :
  PyStr.occurs_in ".org"
    (PyStr.ascii_lower "https://www.SpringfieldHousing.ORG/agents") ∧
  is_banned_url PyStr.ascii_lower "https://www.SpringfieldHousing.ORG/agents"
    = true.
Proof.
  assert (PyStr.occurs_in ".org"
    (PyStr.ascii_lower "https://www.SpringfieldHousing.ORG/agents")) as H.
  { by exists "https://www.springfieldhousing", "/agents". }
  split; [exact H|]. exact (dot_org_is_banned PyStr.ascii_lower _ H).
Defined.

Example banned_aggregator :
  is_banned_url PyStr.ascii_lower "https://www.Zillow.com/professionals/"
  = true.
Proof. reflexivity. Qed.

Example banned_maps :
  is_banned_url PyStr.ascii_lower "https://www.google.com/maps/place/x"
  = true.
Proof. reflexivity. Qed.

Example clean_url_admitted :
  is_banned_url PyStr.ascii_lower "https://www.janedoehomes.com/about"
  = false.
Proof. reflexivity. Qed.

Example agent_title_passes :
  looks_like_agent PyStr.ascii_lower "Jane Doe Realty Team" = true.
Proof. reflexivity. Qed.

Example listing_title_fails :
  looks_like_agent PyStr.ascii_lower "Homes for Sale in Springfield" = false.
Proof. reflexivity. Qed.

(** ** Page classifier *)

Lemma first_nonempty_none sources :
  first_nonempty sources = None ↔ ∀ s, Some s ∈ sources → s = EmptyString.
Proof.
  induction sources as [|o rest IH]; simpl.
  - split; [|done]. intros _ s Hs. by apply elem_of_nil in Hs.
  - destruct o as [[|c s0]|].
    + rewrite IH. split.
      * intros Hrest s [Hs|Hs]%elem_of_cons; [congruence|by apply Hrest].
      * intros Hall s Hs. apply Hall. by right.
    + split; [done|]. intros Hall.
      specialize (Hall (String c s0)). discriminate Hall. by left.
    + rewrite IH. split.
      * intros Hrest s [Hs|Hs]%elem_of_cons; [congruence|by apply Hrest].
      * intros Hall s Hs. apply Hall. by right.
Qed.

Section ClassifierFacts.
Variable strip : string → string.
Variable BeautifulSoup : string → Bs4.Soup.

Lemma extract_meta_title_sources html :
  extract_meta_title strip BeautifulSoup html =
  strip <$> first_nonempty (title_sources (BeautifulSoup html)).
Proof.
  unfold extract_meta_title, title_sources. simpl.
  destruct (Bs4.find (Bs4.named_with "meta" "property" "og:title") _
              ≫= Bs4.get "content") as [[|c1 s1]|]; simpl; try done;
  destruct (Bs4.find (Bs4.named_with "meta" "name" "title") _
              ≫= Bs4.get "content") as [[|c2 s2]|]; simpl; try done;
  by destruct (Bs4.find (Bs4.named "title") _ ≫= Bs4.string_of)
    as [[|c3 s3]|].
Qed.


(** C6. When the Open-Graph title found in the document has non-empty
    content, that content (trimmed) is the result, whatever the other
    sources hold. *)
Theorem og_title_has_priority html og content :
  Bs4.find (Bs4.named_with "meta" "property" "og:title")
    (BeautifulSoup html) = Some og →
  Bs4.get "content" og = Some content →
  content ≠ EmptyString →
  extract_meta_title strip BeautifulSoup html = Some (strip content).
Proof.
  intros Hog Hc Hne. unfold extract_meta_title.
  rewrite Hog. simpl. rewrite Hc. by destruct content.
Qed.

End ClassifierFacts.


Lemma og_title_has_priority_witness :
  extract_meta_title PyStr.ascii_strip sample_parser html_og_and_title
  = Some "Jane Doe Team".
Proof.
  apply (og_title_has_priority PyStr.ascii_strip sample_parser
           html_og_and_title
           (Bs4.Tag "meta"
              {[ "property" := "og:title"; "content" := " Jane Doe Team " ]}
              [])
           " Jane Doe Team ").
  - vm_compute. reflexivity.
  - vm_compute. reflexivity.
  - discriminate.
Defined.

(** ** Builtins on integer sequences *)

Module PyIntFacts.

Lemma fold_add l a : fold_left Z.add l a = a + total_of l.
Proof.
  revert a. induction l as [|x l IH]; intros a; simpl; [lia|].
  rewrite IH. lia.
Qed.

Lemma sum_total l : PyInt.sum l = total_of l.
Proof. unfold PyInt.sum. rewrite fold_add. lia. Qed.

Lemma fold_min_least l x : least_of (fold_left Z.min l x) (x :: l).
Proof.
  revert x. induction l as [|y l IH]; intros x; simpl.
  - split; [by left|]. intros v ->%list_elem_of_singleton. lia.
  - destruct (IH (Z.min x y)) as [Hin Hle]. split.
    + apply elem_of_cons in Hin as [->|Hin].
      * destruct (Z.min_spec x y) as [[_ ->]|[_ ->]]; set_solver.
      * set_solver.
    + intros v [->|[->|Hv]%elem_of_cons]%elem_of_cons.
      * etrans; [apply Hle; by left|lia].
      * etrans; [apply Hle; by left|lia].
      * apply Hle. by right.
Qed.

Lemma fold_max_greatest l x : greatest_of (fold_left Z.max l x) (x :: l).
Proof.
  revert x. induction l as [|y l IH]; intros x; simpl.
  - split; [by left|]. intros v ->%list_elem_of_singleton. lia.
  - destruct (IH (Z.max x y)) as [Hin Hle]. split.
    + apply elem_of_cons in Hin as [->|Hin].
      * destruct (Z.max_spec x y) as [[_ ->]|[_ ->]]; set_solver.
      * set_solver.
    + intros v [->|[->|Hv]%elem_of_cons]%elem_of_cons.
      * etrans; [|apply Hle; by left]. lia.
      * etrans; [|apply Hle; by left]. lia.
      * apply Hle. by right.
Qed.

Lemma min_least l m : PyInt.min l = Some m → least_of m l.
Proof.
  destruct l as [|x l]; simpl; [done|].
  intros [= <-]. apply fold_min_least.
Qed.

Lemma max_greatest l m : PyInt.max l = Some m → greatest_of m l.
Proof.
  destruct l as [|x l]; simpl; [done|].
  intros [= <-]. apply fold_max_greatest.
Qed.

Lemma min_is_Some l : l ≠ [] → is_Some (PyInt.min l).
Proof. destruct l; [done|]. intros _. by eexists. Qed.

Lemma max_is_Some l : l ≠ [] → is_Some (PyInt.max l).
Proof. destruct l; [done|]. intros _. by eexists. Qed.

Lemma min_by_is_Some {A} (key : A → Z) l :
  is_Some (PyInt.min_by key l) ↔ l ≠ [].
Proof.
  destruct l; simpl; split; done.
Qed.

Lemma insert_by_perm {A} (key : A → Z) x l :
  PyInt.insert_by key x l ≡ₚ x :: l.
Proof.
  induction l as [|y l IH]; simpl; [done|].
  destruct (key x <=? key y); [done|].
  rewrite IH. apply Permutation_swap.
Qed.

Lemma sorted_perm {A} (key : A → Z) l : PyInt.sorted key l ≡ₚ l.
Proof.
  induction l as [|x l IH]; simpl; [done|].
  by rewrite insert_by_perm, IH.
Qed.

Lemma insert_by_sorted {A} (key : A → Z) x l :
  StronglySorted (key_le key) l →
  StronglySorted (key_le key) (PyInt.insert_by key x l).
Proof.
  induction 1 as [|y l Hl IH Hy]; simpl.
  - repeat constructor.
  - destruct (key x <=? key y) eqn:E.
    + apply Z.leb_le in E. constructor; [by constructor|].
      constructor; [done|].
      eapply Forall_impl; [exact Hy|]. unfold key_le. intros; lia.
    + apply Z.leb_gt in E. constructor; [done|].
      rewrite insert_by_perm. constructor; [|done].
      unfold key_le. lia.
Qed.

Lemma sorted_sorted {A} (key : A → Z) l :
  StronglySorted (key_le key) (PyInt.sorted key l).
Proof.
  induction l as [|x l IH]; simpl; [constructor|].
  by apply insert_by_sorted.
Qed.

Lemma strongly_sorted_lookup {A} (key : A → Z) l (i j : nat) a b :
  StronglySorted (key_le key) l →
  l !! i = Some a → l !! j = Some b → (i < j)%nat → key a ≤ key b.
Proof.
  intros Hs. revert i j.
  induction Hs as [|x l Hl IH Hx]; intros i j Hi Hj Hlt; [done|].
  destruct j as [|j]; [lia|]. simpl in Hj.
  destruct i as [|i]; simpl in Hi.
  - injection Hi as ->.
    rewrite Forall_forall in Hx. apply Hx.
    by eapply list_elem_of_lookup_2.
  - eapply IH; [done..|lia].
Qed.

Lemma enumerate_lookup {A} (l : list A) start (i : nat) :
  PyInt.enumerate start l !! i = (λ x, (start + Z.of_nat i, x)) <$> l !! i.
Proof.
  revert start i. induction l as [|x l IH]; intros start i; [done|].
  destruct i as [|i]; simpl.
  - f_equal. f_equal. lia.
  - rewrite IH. destruct (l !! i); simpl; [|done].
    do 2 f_equal. lia.
Qed.

End PyIntFacts.

(** ** Aggregator *)

Section AggregatorFacts.
Variable set_iter : gset string → list string.
Implicit Types (query_results : list (gmap string AgentEntry.t)).
Implicit Types (penalty : Z) (key : string).

Lemma queries_containing_cons key qr query_results :
  queries_containing key (qr :: query_results) =
  (if qr !! key is Some _ then 1 else 0)
  + queries_containing key query_results.
Proof.
  unfold queries_containing. rewrite filter_cons.
  destruct (decide (is_Some (qr !! key))) as [[e He]|Hn].
  - rewrite He. simpl. lia.
  - destruct (qr !! key) eqn:E; [by destruct Hn|]. lia.
Qed.

Lemma queries_containing_bounds key query_results :
  0 ≤ queries_containing key query_results ≤ Z.of_nat (length query_results).
Proof.
  unfold queries_containing.
  pose proof (length_filter (λ qr : gmap string AgentEntry.t,
                  is_Some (qr !! key)) query_results).
  lia.
Qed.

Lemma queries_containing_pos key query_results :
  0 < queries_containing key query_results ↔
  ∃ qr, qr ∈ query_results ∧ is_Some (qr !! key).
Proof.
  unfold queries_containing.
  destruct (filter _ query_results) as [|qr l] eqn:E; simpl.
  - split; [lia|]. intros (qr & Hin & Hs).
    assert (qr ∈ filter (λ qr : gmap string AgentEntry.t,
                           is_Some (qr !! key)) query_results) as Hf
      by by apply list_elem_of_filter.
    rewrite E in Hf. by apply elem_of_nil in Hf.
  - split; [|lia]. intros _. exists qr.
    assert (qr ∈ filter (λ qr : gmap string AgentEntry.t,
                           is_Some (qr !! key)) query_results) as Hf
      by (rewrite E; by left).
    apply list_elem_of_filter in Hf. tauto.
Qed.

Lemma collect_ranks_spec key penalty query_results ranks appearances :
  collect_ranks key penalty query_results ranks appearances =
  (ranks ++ (query_value penalty key <$> query_results),
   appearances + queries_containing key query_results).
Proof.
  revert ranks appearances.
  induction query_results as [|qr rest IH]; intros ranks appearances.
  - simpl. rewrite app_nil_r. f_equal. unfold queries_containing. simpl. lia.
  - simpl. rewrite queries_containing_cons.
    assert (query_value penalty key qr =
            match qr !! key with
            | Some e => AgentEntry.rank e
            | None => penalty
            end) as -> by done.
    destruct (qr !! key) as [e|]; rewrite IH, <- app_assoc; simpl;
      f_equal; lia.
Qed.

Lemma present_entries key query_results :
  omap (λ qr : gmap string AgentEntry.t, qr !! key) query_results ≠ [] ↔
  ∃ qr, qr ∈ query_results ∧ is_Some (qr !! key).
Proof.
  split.
  - destruct (omap _ query_results) as [|e l] eqn:E; [done|]. intros _.
    assert (e ∈ omap (λ qr : gmap string AgentEntry.t, qr !! key)
                     query_results) as He by (rewrite E; by left).
    apply list_elem_of_omap in He as (qr & Hin & Hl). eauto.
  - intros (qr & Hin & [e He]) Hnil.
    assert (e ∈ omap (λ qr : gmap string AgentEntry.t, qr !! key)
                     query_results) as Hin'
      by (apply list_elem_of_omap; eauto).
    rewrite Hnil in Hin'. by apply elem_of_nil in Hin'.
Qed.

(** The loop body succeeds exactly on the names present in some query,
    and its result meets the scoring invariants. *)
Lemma aggregate_key_Some query_results penalty key a :
  aggregate_key query_results penalty key = Some a →
  scored query_results penalty key a ∧
  ∃ qr, qr ∈ query_results ∧ is_Some (qr !! key).
Proof.
  unfold aggregate_key. rewrite collect_ranks_spec. simpl.
  destruct (PyInt.min _) as [best|] eqn:Hmin; simpl; [|done].
  destruct (PyInt.max _) as [worst|] eqn:Hmax; simpl; [|done].
  destruct (PyInt.min_by _ _) as [best_entry|] eqn:Hby; simpl; [|done].
  intros [= <-]. split.
  - unfold scored. simpl. split_and!.
    + apply PyIntFacts.sum_total.
    + by apply PyIntFacts.min_least.
    + by apply PyIntFacts.max_greatest.
    + done.
  - apply present_entries. apply (PyIntFacts.min_by_is_Some AgentEntry.rank).
    by rewrite Hby.
Qed.

Lemma aggregate_key_present query_results penalty key :
  (∃ qr, qr ∈ query_results ∧ is_Some (qr !! key)) →
  is_Some (aggregate_key query_results penalty key).
Proof.
  intros Hpresent. unfold aggregate_key. rewrite collect_ranks_spec. simpl.
  assert (query_value penalty key <$> query_results ≠ []) as Hne.
  { destruct Hpresent as (qr & Hin & _).
    destruct query_results; [by apply elem_of_nil in Hin|done]. }
  destruct (PyIntFacts.min_is_Some _ Hne) as [best ->].
  destruct (PyIntFacts.max_is_Some _ Hne) as [worst ->].
  apply present_entries, (PyIntFacts.min_by_is_Some AgentEntry.rank)
    in Hpresent as [e ->].
  simpl. by eexists.
Qed.

Lemma aggregate_loop_mapM query_results penalty keys aggregated :
  aggregate_loop query_results penalty keys aggregated =
  (aggregated ++.) <$> mapM (aggregate_key query_results penalty) keys.
Proof.
  revert aggregated. induction keys as [|key rest IH]; intros aggregated.
  - simpl. by rewrite app_nil_r.
  - simpl. destruct (aggregate_key _ _ key) as [e|]; simpl; [|done].
    rewrite IH. destruct (mapM _ rest) as [es|]; simpl; [|done].
    by rewrite <- app_assoc.
Qed.

Lemma elem_of_all_keys query_results key :
  key ∈ all_keys query_results ↔
  ∃ qr, qr ∈ query_results ∧ is_Some (qr !! key).
Proof.
  unfold all_keys. rewrite elem_of_union_list. split.
  - intros (X & HX & Hk). apply list_elem_of_fmap in HX as (qr & -> & Hin).
    exists qr. split; [done|]. by apply elem_of_dom.
  - intros (qr & Hin & Hs). exists (dom qr). split.
    + apply list_elem_of_fmap. eauto.
    + by apply elem_of_dom.
Qed.

(** With a set iterator that stays inside the set, the aggregation never
    raises: the unsorted list is one scored entry per visited key. *)
Lemma aggregate_entries_unsorted query_results penalty :
  (∀ key, key ∈ set_iter (all_keys query_results) →
          key ∈ all_keys query_results) →
  ∃ aggregated,
    aggregate_entries set_iter query_results penalty =
      Some (PyInt.sorted AggregatedEntry.total_score aggregated) ∧
    Forall2 (λ key a, aggregate_key query_results penalty key = Some a)
      (set_iter (all_keys query_results)) aggregated.
Proof.
  intros Hsub. unfold aggregate_entries. rewrite aggregate_loop_mapM.
  assert (is_Some (mapM (aggregate_key query_results penalty)
                        (set_iter (all_keys query_results)))) as [l Hl].
  { apply mapM_is_Some, Forall_forall. intros key Hkey.
    apply aggregate_key_present, elem_of_all_keys, Hsub, Hkey. }
  exists l. rewrite Hl. simpl. split; [done|].
  by apply mapM_Some.
Qed.

Lemma iterates_elem_of X key :
  iterates set_iter → key ∈ set_iter X ↔ key ∈ X.
Proof. intros Hit. by rewrite (Hit X), elem_of_elements. Qed.

Lemma ascending_sorted (l : list AggregatedEntry.t) :
  ascending (PyInt.sorted AggregatedEntry.total_score l).
Proof.
  pose proof (PyIntFacts.sorted_sorted AggregatedEntry.total_score l) as Hs.
  split.
  - intros i a b Ha Hb.
    eapply (PyIntFacts.strongly_sorted_lookup _ _ i (S i)); eauto.
  - intros i j a b Ha Hb Hlt.
    destruct (decide (i < j)%nat) as [|Hge]; [done|].
    assert (AggregatedEntry.total_score b ≤ AggregatedEntry.total_score a);
      [|lia].
    destruct (decide (i = j)) as [->|Hne]; [naive_solver lia|].
    eapply (PyIntFacts.strongly_sorted_lookup _ _ j i); eauto. lia.
Qed.

End AggregatorFacts.

Lemma iterates_elements : iterates elements.
Proof. by intros X. Qed.

Lemma iterates_reverse : iterates (λ X, reverse (elements X)).
Proof. intros X. apply reverse_Permutation. Qed.

Example aggregate_three_queries :
  aggregate_entries elements three_queries 51 =
  Some [ AggregatedEntry.mk "Jane Doe Team" "https://janedoe.example/"
           61 3 51 2 ].
Proof. vm_compute. reflexivity. Qed.

Example aggregate_two_names :
  (λ out : list AggregatedEntry.t,
     (λ a, (AggregatedEntry.name a, AggregatedEntry.total_score a)) <$> out)
    <$> aggregate_entries elements two_names 51
  = Some [("Jane Doe Team", 40); ("Smith Realty", 55)].
Proof. vm_compute. reflexivity. Qed.

Example aggregate_two_names_reversed :
  (λ out : list AggregatedEntry.t,
     (λ a, (AggregatedEntry.name a, AggregatedEntry.total_score a)) <$> out)
    <$> aggregate_entries (λ X, reverse (elements X)) two_names 51
  = Some [("Jane Doe Team", 40); ("Smith Realty", 55)].
Proof. vm_compute. reflexivity. Qed.

Lemma elem_le_total (values : list Z) v :
  (∀ x, x ∈ values → 0 ≤ x) → v ∈ values → v ≤ total_of values.
Proof.
  induction values as [|x values IH]; intros Hpos Hin.
  - by apply elem_of_nil in Hin.
  - assert (0 ≤ total_of values) as Htot.
    { clear IH Hin. induction values as [|y values IH]; simpl; [lia|].
      assert (0 ≤ y) by (apply Hpos; right; by left).
      assert (0 ≤ total_of values); [|lia].
      apply IH. intros z Hz. apply Hpos.
      apply elem_of_cons in Hz as [->|Hz]; [by left|]. by do 2 right. }
    assert (0 ≤ x) by (apply Hpos; by left).
    simpl. apply elem_of_cons in Hin as [->|Hin]; [lia|].
    assert (v ≤ total_of values); [|lia].
    apply IH; [|done]. intros z Hz. apply Hpos. by right.
Qed.

Section AggregatorTheorems.
Variable set_iter : gset string → list string.
Implicit Types (query_results : list (gmap string AgentEntry.t)).

(** C1. The aggregation returns a list holding, for each name in the union
    of the dictionaries' keys, one entry whose [total_score] is the sum
    over the queries of the stored rank (or the penalty when the name is
    absent), whose [best_rank] and [worst_rank] are the least and the
    greatest of those per-query values, and whose [appearance_count] is
    the number of queries that contain the name. *)
Theorem aggregate_entries_scores query_results penalty :
  iterates set_iter →
  ∃ keys aggregated out,
    aggregate_entries set_iter query_results penalty = Some out ∧
    NoDup keys ∧
    (∀ key, key ∈ keys ↔
            ∃ qr, qr ∈ query_results ∧ is_Some (qr !! key)) ∧
    Forall2 (scored query_results penalty) keys aggregated ∧
    out ≡ₚ aggregated.
Proof.
  intros Hit.
  destruct (aggregate_entries_unsorted set_iter query_results penalty)
    as (aggregated & Hout & Hall).
  { intros key. by rewrite iterates_elem_of. }
  exists (set_iter (all_keys query_results)), aggregated,
         (PyInt.sorted AggregatedEntry.total_score aggregated).
  split_and!.
  - done.
  - rewrite (Hit _). apply NoDup_elements.
  - intros key. by rewrite iterates_elem_of, elem_of_all_keys.
  - eapply Forall2_impl; [exact Hall|].
    intros key a Ha. by apply aggregate_key_Some in Ha as [? _].
  - apply PyIntFacts.sorted_perm.
Qed.

(** C2. The returned list is ascending by [total_score]: adjacent entries
    are in order, and an entry with a strictly smaller score (40 against
    55, say) stands before the other. *)
Theorem aggregate_entries_ascending query_results penalty :
  iterates set_iter →
  ∃ out, aggregate_entries set_iter query_results penalty = Some out ∧
         ascending out.
Proof.
  intros Hit.
  destruct (aggregate_entries_unsorted set_iter query_results penalty)
    as (aggregated & Hout & _).
  { intros key. by rewrite iterates_elem_of. }
  eexists. split; [exact Hout|]. apply ascending_sorted.
Qed.

(** C9, with the sign condition that the score bound needs.  Every entry
    of the result has [best_rank ≤ worst_rank] and an [appearance_count]
    between 1 and the number of queries; [best_rank ≤ total_score] holds
    when the penalty and the stored ranks are not negative. *)
Theorem aggregated_entry_bounds query_results penalty out a :
  iterates set_iter →
  aggregate_entries set_iter query_results penalty = Some out →
  a ∈ out →
  AggregatedEntry.best_rank a ≤ AggregatedEntry.worst_rank a ∧
  1 ≤ AggregatedEntry.appearance_count a
    ≤ Z.of_nat (length query_results) ∧
  (0 ≤ penalty →
   (∀ qr key e, qr ∈ query_results → qr !! key = Some e →
                0 ≤ AgentEntry.rank e) →
   AggregatedEntry.best_rank a ≤ AggregatedEntry.total_score a).
Proof.
  intros Hit Hout Hin.
  destruct (aggregate_entries_unsorted set_iter query_results penalty)
    as (aggregated & Hout' & Hall).
  { intros key. by rewrite iterates_elem_of. }
  rewrite Hout in Hout'. injection Hout' as ->.
  rewrite PyIntFacts.sorted_perm in Hin.
  apply list_elem_of_lookup in Hin as [i Hi].
  destruct (Forall2_lookup_r _ _ _ _ _ Hall Hi) as (key & _ & Hkey).
  apply aggregate_key_Some in Hkey
    as [(Htotal & [Hbin Hbest] & [Hwin Hworst] & Hcount) Hpresent].
  split_and!.
  - by apply Hbest.
  - rewrite Hcount. apply queries_containing_pos in Hpresent. lia.
  - rewrite Hcount. apply queries_containing_bounds.
  - intros Hpen Hranks. rewrite Htotal. apply elem_le_total; [|done].
    intros x (qr & -> & Hqr)%list_elem_of_fmap. unfold query_value.
    destruct (qr !! key) as [e|] eqn:He; [by eapply Hranks|done].
Qed.

End AggregatorTheorems.

Lemma aggregate_entries_scores_witness :
  iterates elements ∧
  ∃ keys aggregated out,
    aggregate_entries elements three_queries 51 = Some out ∧
    NoDup keys ∧
    (∀ key, key ∈ keys ↔ ∃ qr, qr ∈ three_queries ∧ is_Some (qr !! key)) ∧
    Forall2 (scored three_queries 51) keys aggregated ∧
    out ≡ₚ aggregated.
Proof.
  split; [exact iterates_elements|].
  exact (aggregate_entries_scores elements three_queries 51 iterates_elements).
Defined.

Lemma aggregate_entries_ascending_witness :
  iterates (λ X, reverse (elements X)) ∧
  ∃ out, aggregate_entries (λ X, reverse (elements X)) two_names 51 = Some out
         ∧ ascending out.
Proof.
  split; [exact iterates_reverse|].
  exact (aggregate_entries_ascending _ two_names 51 iterates_reverse).
Defined.

Lemma aggregated_entry_bounds_witness :
  let a := AggregatedEntry.mk "Jane Doe Team" "https://janedoe.example/"
             61 3 51 2 in
  AggregatedEntry.best_rank a ≤ AggregatedEntry.worst_rank a ∧
  1 ≤ AggregatedEntry.appearance_count a ≤ Z.of_nat (length three_queries) ∧
  (0 ≤ 51 →
   (∀ qr key e, qr ∈ three_queries → qr !! key = Some e →
                0 ≤ AgentEntry.rank e) →
   AggregatedEntry.best_rank a ≤ AggregatedEntry.total_score a).
Proof.
  intros a.
  apply (aggregated_entry_bounds elements three_queries 51 [a] a).
  - exact iterates_elements.
  - vm_compute. reflexivity.
  - by left.
Defined.

(** C9 fails as stated: with one appearance at rank 1 among three queries
    and a penalty of -10 the entry has [best_rank] -10 and [total_score]
    -19. *)
Lemma best_rank_above_total :
  let a := AggregatedEntry.mk "Jane Doe Team" "https://janedoe.example/"
             (-19) (-10) 1 1 in
  one_of_three ≠ [] ∧
  aggregate_entries elements one_of_three (-10) = Some [a] ∧
  ¬ (AggregatedEntry.best_rank a ≤ AggregatedEntry.worst_rank a ∧
     AggregatedEntry.best_rank a ≤ AggregatedEntry.total_score a ∧
     1 ≤ AggregatedEntry.appearance_count a
       ≤ Z.of_nat (length one_of_three)).
Proof.
  intros a. split_and!.
  - done.
  - vm_compute. reflexivity.
  - simpl. lia.
Qed.

(** ** Query fetcher *)

Section FetcherFacts.
Context {World : Type}.
Variable lower : string → string.
Variable strip : string → string.
Variable search :
  string → string → Z → Z → World → option (list string) * World.
Variable session_get : string → Z → World → option Response * World.
Variable BeautifulSoup : string → Bs4.Soup.
Implicit Types (entries : gmap string AgentEntry.t) (w : World).
Implicit Types (hits : list (Z * string * string)).

Local Abbreviation loop :=
  (fetch_loop lower strip session_get BeautifulSoup).
Local Abbreviation trace :=
  (classified lower strip session_get BeautifulSoup).
Local Abbreviation fetch :=
  (fetch_agents_for_query lower strip search session_get BeautifulSoup).
Local Abbreviation hits_in :=
  (hits_of lower strip search session_get BeautifulSoup).

(** The loop performs exactly the updates of the classified results. *)
Lemma fetch_loop_classified items entries w :
  (loop items entries w).1 = upsert_all lower entries (trace items w).
Proof.
  revert entries w. induction items as [|[rank url] rest IH];
    intros entries w; [done|].
  simpl. destruct (is_banned_url lower url); [apply IH|].
  destruct (try_fetch session_get url w) as [[resp|] w']; [|apply IH].
  destruct (extract_meta_title strip BeautifulSoup (text resp))
    as [[|c title]|]; [apply IH| |apply IH].
  destruct (looks_like_agent lower (String c title)); [|apply IH].
  rewrite IH. done.
Qed.

Lemma fetch_agents_for_query_hits query max_results w :
  (fetch query max_results w).1 =
  upsert_all lower ∅ (hits_in query max_results w).
Proof.
  unfold fetch_agents_for_query, hits_of.
  destruct (get_search_results search query max_results w) as [urls w'].
  apply fetch_loop_classified.
Qed.

Lemma hits_for_cons key h hits :
  hits_for lower key (h :: hits) =
  if decide (lower h.2 = key) then h :: hits_for lower key hits
  else hits_for lower key hits.
Proof. unfold hits_for. by rewrite filter_cons. Qed.

Lemma upsert_all_cons h hits entries :
  upsert_all lower entries (h :: hits) =
  upsert_all lower (upsert lower entries h.2 h.1.2 h.1.1) hits.
Proof. done. Qed.

(** What a run of updates leaves under [key]: an entry already there
    keeps its name and url and takes the least rank; otherwise the first
    matching result gives name and url, and the rank is the least among
    the matching ones. *)
Lemma upsert_all_lookup key hits entries :
  upsert_all lower entries hits !! key =
  match entries !! key with
  | Some e =>
      Some (AgentEntry.set_rank
              (fold_left Z.min (ranks_of (hits_for lower key hits))
                 (AgentEntry.rank e)) e)
  | None =>
      match hits_for lower key hits with
      | [] => None
      | h :: later =>
          Some (AgentEntry.mk h.2 h.1.2
                  (fold_left Z.min (ranks_of later) h.1.1))
      end
  end.
Proof.
  revert entries. induction hits as [|[[rank url] title] hits IH];
    intros entries.
  - simpl. destruct (entries !! key) as [[n u r]|]; done.
  - rewrite upsert_all_cons, IH, hits_for_cons. simpl. unfold upsert.
    destruct (decide (lower title = key)) as [<-|Hne].
    + destruct (entries !! lower title) as [e|] eqn:He.
      * rewrite lookup_insert_eq. by destruct e.
      * by rewrite lookup_insert_eq.
    + destruct (entries !! lower title) as [e'|] eqn:He';
        by rewrite lookup_insert_ne.
Qed.

Lemma upsert_all_empty_lookup key hits :
  upsert_all lower ∅ hits !! key =
  match hits_for lower key hits with
  | [] => None
  | h :: later =>
      Some (AgentEntry.mk h.2 h.1.2 (fold_left Z.min (ranks_of later) h.1.1))
  end.
Proof. by rewrite upsert_all_lookup, lookup_empty. Qed.

Lemma upsert_all_key key hits e :
  upsert_all lower ∅ hits !! key = Some e →
  key = lower (AgentEntry.name e).
Proof.
  rewrite upsert_all_empty_lookup.
  destruct (hits_for lower key hits) as [|h later] eqn:E; [done|].
  intros [= <-]. simpl.
  assert (h ∈ hits_for lower key hits) as Hin by (rewrite E; by left).
  apply list_elem_of_filter in Hin as [Hk _]. done.
Qed.

(** The loop from an empty dictionary, over any ranked sequence: the least
    rank is kept whatever the order in which the ranks come. *)
Lemma fetch_loop_lookup items w key :
  (loop items ∅ w).1 !! key =
  match hits_for lower key (trace items w) with
  | [] => None
  | h :: later =>
      Some (AgentEntry.mk h.2 h.1.2 (fold_left Z.min (ranks_of later) h.1.1))
  end.
Proof. by rewrite fetch_loop_classified, upsert_all_empty_lookup. Qed.

(** C3. In the dictionary of one query, the entry under a case-folded
    title has the name and url of the first classified result with that
    title and the least of the ranks of all such results; there is no
    entry when there is no such result, and no two entries share a
    case-folded name. *)
Theorem dedup_keeps_least_rank query max_results w key :
  let entries := (fetch query max_results w).1 in
  let seen := hits_for lower key (hits_in query max_results w) in
  match seen with
  | [] => entries !! key = None
  | first :: _ =>
      ∃ e, entries !! key = Some e ∧
           AgentEntry.name e = first.2 ∧
           AgentEntry.url e = first.1.2 ∧
           least_of (AgentEntry.rank e) (ranks_of seen)
  end ∧
  ∀ k1 k2 e1 e2,
    entries !! k1 = Some e1 → entries !! k2 = Some e2 →
    lower (AgentEntry.name e1) = lower (AgentEntry.name e2) →
    k1 = k2 ∧ e1 = e2.
Proof.
  intros entries seen. subst entries seen.
  rewrite fetch_agents_for_query_hits. split.
  - rewrite upsert_all_empty_lookup.
    destruct (hits_for lower key _) as [|h later]; [done|].
    eexists. split; [done|]. simpl. split_and!; [done..|].
    apply PyIntFacts.fold_min_least.
  - intros k1 k2 e1 e2 H1 H2 Heq.
    assert (k1 = k2) as ->.
    { apply upsert_all_key in H1 as ->.
      by apply upsert_all_key in H2 as ->. }
    split; [done|]. congruence.
Qed.

Lemma positioned_mono raw bound bound' entries :
  bound ≤ bound' → positioned raw bound entries →
  positioned raw bound' entries.
Proof.
  intros Hle Hp key e He. destruct (Hp key e He) as [? ?].
  split; [lia|done].
Qed.

Lemma positioned_upsert raw bound entries title url :
  0 ≤ bound →
  raw !! Z.to_nat bound = Some url →
  positioned raw bound entries →
  positioned raw (bound + 1) (upsert lower entries title url (bound + 1)).
Proof.
  intros Hb Hurl Hp key e. unfold upsert.
  destruct (entries !! lower title) as [old|] eqn:Hold.
  - destruct (Hp _ _ Hold) as [Hr Hu].
    destruct (decide (lower title = key)) as [<-|Hne].
    + rewrite lookup_insert_eq. intros [= <-]. simpl.
      rewrite Z.min_l by lia. split; [lia|done].
    + rewrite lookup_insert_ne by done. intros He.
      destruct (Hp _ _ He). split; [lia|done].
  - destruct (decide (lower title = key)) as [<-|Hne].
    + rewrite lookup_insert_eq. intros [= <-]. simpl.
      split; [lia|]. by replace (bound + 1 - 1) with bound by lia.
    + rewrite lookup_insert_ne by done. intros He.
      destruct (Hp _ _ He). split; [lia|done].
Qed.

Lemma fetch_loop_positioned raw seen urls entries w :
  raw = seen ++ urls →
  positioned raw (Z.of_nat (length seen)) entries →
  positioned raw (Z.of_nat (length raw))
    (loop (PyInt.enumerate (1 + Z.of_nat (length seen)) urls) entries w).1.
Proof.
  revert seen entries w. induction urls as [|url rest IH];
    intros seen entries w Hraw Hp.
  - rewrite app_nil_r in Hraw. subst raw. exact Hp.
  - assert (raw = (seen ++ [url]) ++ rest) as Hraw'
      by by rewrite <- app_assoc.
    assert (Z.of_nat (length (seen ++ [url])) = Z.of_nat (length seen) + 1)
      as Hlen by (rewrite length_app; simpl; lia).
    assert (raw !! Z.to_nat (Z.of_nat (length seen)) = Some url) as Hurl.
    { rewrite Nat2Z.id, Hraw. by rewrite list_lookup_middle. }
    assert (∀ entries' w',
      positioned raw (Z.of_nat (length seen) + 1) entries' →
      positioned raw (Z.of_nat (length raw))
        (loop (PyInt.enumerate (1 + Z.of_nat (length seen) + 1) rest)
           entries' w').1) as Hnext.
    { intros entries' w' Hp'.
      replace (1 + Z.of_nat (length seen) + 1)
        with (1 + Z.of_nat (length (seen ++ [url]))) by lia.
      apply IH; [done|]. by rewrite Hlen. }
    assert (positioned raw (Z.of_nat (length seen) + 1) entries) as Hskip
      by (eapply positioned_mono; [|exact Hp]; lia).
    simpl. destruct (is_banned_url lower url); [by apply Hnext|].
    destruct (try_fetch session_get url w) as [[resp|] w'];
      [|by apply Hnext].
    destruct (extract_meta_title strip BeautifulSoup (text resp))
      as [[|c title]|]; [by apply Hnext| |by apply Hnext].
    destruct (looks_like_agent lower (String c title)); [|by apply Hnext].
    apply Hnext.
    replace (1 + Z.of_nat (length seen)) with (Z.of_nat (length seen) + 1)
      by lia.
    apply positioned_upsert; [lia|done..].
Qed.

(** C4. The rank stored in an entry is the 1-based position, in the raw
    result sequence of the search provider, of the entry's url: skipped
    results leave the numbering of the others untouched. *)
Theorem rank_is_search_position query max_results w key e :
  (fetch query max_results w).1 !! key = Some e →
  1 ≤ AgentEntry.rank e ∧
  (get_search_results search query max_results w).1
    !! Z.to_nat (AgentEntry.rank e - 1) = Some (AgentEntry.url e).
Proof.
  unfold fetch_agents_for_query.
  destruct (get_search_results search query max_results w)
    as [urls w'] eqn:Hres.
  intros He. simpl.
  assert (positioned urls (Z.of_nat (length urls))
            (loop (PyInt.enumerate 1 urls) ∅ w').1) as Hp.
  { apply (fetch_loop_positioned urls [] urls ∅ w' eq_refl).
    intros k e'. by rewrite lookup_empty. }
  destruct (Hp key e He) as [Hr Hu]. split; [lia|done].
Qed.

(** A failing search leaves the query with an empty dictionary. *)
Lemma search_failure_empty query max_results w w' :
  search query "us" max_results 2 w = (None, w') →
  fetch query max_results w = (∅, w').
Proof.
  intros Hs. unfold fetch_agents_for_query, get_search_results.
  by rewrite Hs.
Qed.

End FetcherFacts.

(** ** Orchestration *)

Section RunFacts.
Context {World : Type}.
Variable lower : string → string.
Variable strip : string → string.
Variable set_iter : gset string → list string.
Variable search :
  string → string → Z → Z → World → option (list string) * World.
Variable session_get : string → Z → World → option Response * World.
Variable BeautifulSoup : string → Bs4.Soup.

Local Abbreviation fetch :=
  (fetch_agents_for_query lower strip search session_get BeautifulSoup).
Local Abbreviation fetch_every :=
  (fetch_all lower strip search session_get BeautifulSoup).
Local Abbreviation run :=
  (main_aggregated lower strip set_iter search session_get BeautifulSoup).


Lemma aggregate_entries_no_names query_results penalty :
  iterates set_iter →
  (∀ qr, qr ∈ query_results → qr = ∅) →
  aggregate_entries set_iter query_results penalty = Some [].
Proof.
  intros Hit Hempty. unfold aggregate_entries.
  assert (all_keys query_results = ∅) as ->.
  { apply elem_of_equiv_empty_L. intros key.
    rewrite elem_of_all_keys. intros (qr & Hin & Hs).
    rewrite (Hempty qr Hin), lookup_empty in Hs. by destruct Hs. }
  assert (set_iter ∅ = []) as ->.
  { apply Permutation_nil_r. by rewrite (Hit ∅), elements_empty. }
  done.
Qed.

Lemma fetch_all_failing qs results w :
  (∀ query w0, (search query "us" results 2 w0).1 = None) →
  ∀ qr, qr ∈ (fetch_every qs results w).1 → qr = ∅.
Proof.
  intros Hfail. revert w. induction qs as [|q rest IH]; intros w qr; simpl.
  - intros Hin. by apply elem_of_nil in Hin.
  - destruct (search q "us" results 2 w) as [o w1] eqn:Hs.
    pose proof (Hfail q w) as Hq. rewrite Hs in Hq. simpl in Hq. subst o.
    rewrite (search_failure_empty lower strip search session_get
               BeautifulSoup q results w w1 Hs).
    specialize (IH w1).
    destruct (fetch_every rest results w1) as [qrs w2]. simpl in *.
    intros [->|Hin]%elem_of_cons; [done|]. by apply IH.
Qed.

End RunFacts.

(** ** The sample web, run *)

Example demo_query :
  Demo.fetch "best realtors in springfield" 50 0%nat =
  ({[ "jane doe team" :=
        AgentEntry.mk "Jane Doe Team" "https://janedoe.example/" 2 ]},
   6%nat).
Proof. vm_compute. reflexivity. Qed.

(** The update keeps the least rank whatever the order of the ranks: the
    same name at rank 5 and later at rank 2 is stored with rank 2, under the
    name and url seen first. *)
Example demo_rank_5_then_2 :
  (Demo.loop [ (5, "https://janedoe.example/");
               (2, "https://janedoe.example/team") ] ∅ 0%nat).1
  = {[ "jane doe team" :=
         AgentEntry.mk "Jane Doe Team" "https://janedoe.example/" 2 ]}.
Proof. vm_compute. reflexivity. Qed.

Example demo_run :
  (Demo.run "  springfield " 50 0%nat).1 =
  Some [ AggregatedEntry.mk "Jane Doe Team" "https://janedoe.example/"
           359 2 51 1 ].
Proof. vm_compute. reflexivity. Qed.

Lemma dedup_keeps_least_rank_witness :
  let entries := (Demo.fetch "best realtors in springfield" 50 0%nat).1 in
  let seen :=
    hits_for PyStr.ascii_lower "jane doe team"
      (hits_of PyStr.ascii_lower PyStr.ascii_strip Demo.search
         Demo.session_get Demo.BeautifulSoup
         "best realtors in springfield" 50 0%nat) in
  match seen with
  | [] => entries !! "jane doe team" = None
  | first :: _ =>
      ∃ e, entries !! "jane doe team" = Some e ∧
           AgentEntry.name e = first.2 ∧
           AgentEntry.url e = first.1.2 ∧
           least_of (AgentEntry.rank e) (ranks_of seen)
  end ∧
  ∀ k1 k2 e1 e2,
    entries !! k1 = Some e1 → entries !! k2 = Some e2 →
    PyStr.ascii_lower (AgentEntry.name e1)
      = PyStr.ascii_lower (AgentEntry.name e2) →
    k1 = k2 ∧ e1 = e2.
Proof.
  exact (dedup_keeps_least_rank PyStr.ascii_lower PyStr.ascii_strip
           Demo.search Demo.session_get Demo.BeautifulSoup
           "best realtors in springfield" 50 0%nat "jane doe team").
Defined.

Lemma rank_is_search_position_witness :
  let e := AgentEntry.mk "Jane Doe Team" "https://janedoe.example/" 2 in
  1 ≤ AgentEntry.rank e ∧
  (get_search_results Demo.search "best realtors in springfield" 50 0%nat).1
    !! Z.to_nat (AgentEntry.rank e - 1) = Some (AgentEntry.url e).
Proof.
  intros e.
  apply (rank_is_search_position PyStr.ascii_lower PyStr.ascii_strip
           Demo.search Demo.session_get Demo.BeautifulSoup
           "best realtors in springfield" 50 0%nat "jane doe team" e).
  vm_compute. reflexivity.
Defined.

(** * Further properties of the code *)

(** ** Domain filter and agent-likeness test, continued *)

Lemma str_app_cons (x : ascii) (a b : string) :
  String x a +:+ b = String x (a +:+ b).
Proof. reflexivity. Qed.

Lemma str_app_assoc (a b c : string) : (a +:+ b) +:+ c = a +:+ b +:+ c.
Proof.
  induction a as [|x a IH]; [reflexivity|].
  by rewrite !str_app_cons, IH.
Qed.

Lemma ascii_lower_app (a b : string) :
  PyStr.ascii_lower (a +:+ b) = PyStr.ascii_lower a +:+ PyStr.ascii_lower b.
Proof.
  induction a as [|x a IH]; [reflexivity|].
  rewrite str_app_cons. simpl. by rewrite str_app_cons, IH.
Qed.

Lemma occurs_in_embed needle hay pre post :
  PyStr.occurs_in needle hay →
  PyStr.occurs_in needle (pre +:+ hay +:+ post).
Proof.
  intros (p & q & ->). exists (pre +:+ p), (q +:+ post).
  by rewrite !str_app_assoc.
Qed.

Lemma any_in_embed xs u pre post :
  PyStr.any_in xs u = true → PyStr.any_in xs (pre +:+ u +:+ post) = true.
Proof.
  rewrite !PyStrFacts.any_in_occurs. intros (x & Hx & Hocc).
  exists x. split; [done|]. by apply occurs_in_embed.
Qed.

Section MoreFilterFacts.
Variable lower : string → string.

(** X1. A title is agent-like exactly when its lower-casing contains one of
    the five indicator words; it is rejected exactly when it contains none
    of them. *)
Theorem looks_like_agent_iff title :
  (looks_like_agent lower title = true ↔
     ∃ indicator, indicator ∈ AGENT_INDICATORS ∧
                  PyStr.occurs_in indicator (lower title)) ∧
  (looks_like_agent lower title = false ↔
     ∀ indicator, indicator ∈ AGENT_INDICATORS →
                  ¬ PyStr.occurs_in indicator (lower title)).
Proof.
  unfold looks_like_agent.
  split; [apply PyStrFacts.any_in_occurs|].
  rewrite <- not_true_iff_false, PyStrFacts.any_in_occurs. split.
  - intros Hn k Hk Hocc. apply Hn. eauto.
  - intros Hall (k & Hk & Hocc). by eapply Hall.
Qed.

End MoreFilterFacts.

(** X2. The filter is a substring test on the whole URL: a URL that merely
    embeds a banned URL (in its path or its query string, say) is banned as
    well. *)
Theorem banned_url_embedded url pre post :
  is_banned_url PyStr.ascii_lower url = true →
  is_banned_url PyStr.ascii_lower (pre +:+ url +:+ post) = true.
Proof.
  rewrite !is_banned_url_unfold, !orb_true_iff, !ascii_lower_app.
  rewrite !PyStrFacts.contains_occurs.
  intros [Hm|Hk]; [left|right].
  - by apply occurs_in_embed.
  - by apply any_in_embed.
Qed.

Lemma banned_url_embedded_witness :
  is_banned_url PyStr.ascii_lower "zillow.com/agents" = true ∧
  is_banned_url PyStr.ascii_lower
    ("https://janedoe.example/?ref=" +:+ "zillow.com/agents" +:+ "&x=1")
  = true.
Proof.
  assert (is_banned_url PyStr.ascii_lower "zillow.com/agents" = true) as H
    by reflexivity.
  split; [exact H|].
  exact (banned_url_embedded "zillow.com/agents"
           "https://janedoe.example/?ref=" "&x=1" H).
Defined.

(** X3. Agent-likeness is kept by any text around the title: a title that
    embeds an agent-like title is agent-like. *)
Theorem agent_title_embedded title pre post :
  looks_like_agent PyStr.ascii_lower title = true →
  looks_like_agent PyStr.ascii_lower (pre +:+ title +:+ post) = true.
Proof.
  unfold looks_like_agent. rewrite !ascii_lower_app. apply any_in_embed.
Qed.

Lemma agent_title_embedded_witness :
  looks_like_agent PyStr.ascii_lower "Doe Realty" = true ∧
  looks_like_agent PyStr.ascii_lower ("Jane " +:+ "Doe Realty" +:+ " | Home")
  = true.
Proof.
  assert (looks_like_agent PyStr.ascii_lower "Doe Realty" = true) as H
    by reflexivity.
  split; [exact H|].
  exact (agent_title_embedded "Doe Realty" "Jane " " | Home" H).
Defined.

(** ** Page classifier, continued *)

Section MoreClassifierFacts.
Variable strip : string → string.
Variable BeautifulSoup : string → Bs4.Soup.

(** X4. When the document has no Open-Graph title with content, the title
    meta attribute is used: its non-empty content, trimmed, is the result,
    whatever the title element holds. *)
Theorem meta_title_is_second html content :
  (∀ s, Bs4.find (Bs4.named_with "meta" "property" "og:title")
          (BeautifulSoup html) ≫= Bs4.get "content" = Some s →
        s = EmptyString) →
  Bs4.find (Bs4.named_with "meta" "name" "title") (BeautifulSoup html)
    ≫= Bs4.get "content" = Some content →
  content ≠ EmptyString →
  extract_meta_title strip BeautifulSoup html = Some (strip content).
Proof.
  intros Hog Hmeta Hne. unfold extract_meta_title.
  destruct (Bs4.find (Bs4.named_with "meta" "property" "og:title") _
              ≫= Bs4.get "content") as [[|c s]|].
  - rewrite Hmeta. by destruct content.
  - by specialize (Hog _ eq_refl).
  - rewrite Hmeta. by destruct content.
Qed.

(** X5. When neither meta tag has content, the text of the title element is
    used: a title element whose only child is a non-empty text gives that
    text, trimmed. *)
Theorem title_element_is_last html title :
  (∀ s, Bs4.find (Bs4.named_with "meta" "property" "og:title")
          (BeautifulSoup html) ≫= Bs4.get "content" = Some s →
        s = EmptyString) →
  (∀ s, Bs4.find (Bs4.named_with "meta" "name" "title")
          (BeautifulSoup html) ≫= Bs4.get "content" = Some s →
        s = EmptyString) →
  Bs4.find (Bs4.named "title") (BeautifulSoup html) ≫= Bs4.string_of
    = Some title →
  title ≠ EmptyString →
  extract_meta_title strip BeautifulSoup html = Some (strip title).
Proof.
  intros Hog Hmeta Htitle Hne. unfold extract_meta_title.
  destruct (Bs4.find (Bs4.named_with "meta" "property" "og:title") _
              ≫= Bs4.get "content") as [[|c1 s1]|];
    [|by specialize (Hog _ eq_refl)|];
  (destruct (Bs4.find (Bs4.named_with "meta" "name" "title") _
              ≫= Bs4.get "content") as [[|c2 s2]|];
    [|by specialize (Hmeta _ eq_refl)|]);
  rewrite Htitle; by destruct title.
Qed.

(** X6. A title element that does not hold exactly one child gives no
    title: with no usable meta tag, a title element that is empty or mixes
    text with markup makes the extraction return nothing. *)
Theorem title_needs_a_single_child html name attrs contents :
  (∀ s, Bs4.find (Bs4.named_with "meta" "property" "og:title")
          (BeautifulSoup html) ≫= Bs4.get "content" = Some s →
        s = EmptyString) →
  (∀ s, Bs4.find (Bs4.named_with "meta" "name" "title")
          (BeautifulSoup html) ≫= Bs4.get "content" = Some s →
        s = EmptyString) →
  Bs4.find (Bs4.named "title") (BeautifulSoup html)
    = Some (Bs4.Tag name attrs contents) →
  length contents ≠ 1%nat →
  extract_meta_title strip BeautifulSoup html = None.
Proof.
  intros Hog Hmeta Htitle Hlen.
  rewrite extract_meta_title_sources, fmap_None.
  apply first_nonempty_none. unfold title_sources. rewrite Htitle.
  intros s Hs.
  apply elem_of_cons in Hs as [Hs|Hs]; [by apply Hog|].
  apply elem_of_cons in Hs as [Hs|Hs]; [by apply Hmeta|].
  apply list_elem_of_singleton in Hs. simpl in Hs.
  destruct contents as [|c [|c' rest]]; simpl in *; done.
Qed.

End MoreClassifierFacts.

Lemma meta_title_is_second_witness :
  extract_meta_title PyStr.ascii_strip fallback_parser html_meta_title
  = Some "Smith Realty".
Proof.
  apply (meta_title_is_second PyStr.ascii_strip fallback_parser
           html_meta_title "Smith Realty ").
  - intros s. vm_compute. congruence.
  - vm_compute. reflexivity.
  - discriminate.
Defined.

Lemma title_element_is_last_witness :
  extract_meta_title PyStr.ascii_strip fallback_parser html_plain_title
  = Some "Jane Doe, Broker".
Proof.
  apply (title_element_is_last PyStr.ascii_strip fallback_parser
           html_plain_title " Jane Doe, Broker ").
  - intros s. vm_compute. discriminate.
  - intros s. vm_compute. discriminate.
  - vm_compute. reflexivity.
  - discriminate.
Defined.

Lemma title_needs_a_single_child_witness :
  extract_meta_title PyStr.ascii_strip fallback_parser html_empty_title
  = None.
Proof.
  apply (title_needs_a_single_child PyStr.ascii_strip fallback_parser
           html_empty_title "title" ∅ []).
  - intros s. vm_compute. discriminate.
  - intros s. vm_compute. discriminate.
  - vm_compute. reflexivity.
  - simpl. lia.
Defined.

(** ** Query fetcher, continued *)

Lemma fold_min_above (r : Z) (rs : list Z) :
  Forall (λ x, r ≤ x) rs → fold_left Z.min rs r = r.
Proof.
  induction 1 as [|x rs Hx _ IH]; simpl; [done|].
  by rewrite Z.min_l.
Qed.

Lemma rank_lt_filter (P : Z * string * string → Prop)
    `{∀ h, Decision (P h)} hits :
  StronglySorted rank_lt hits → StronglySorted rank_lt (filter P hits).
Proof.
  induction 1 as [|h hits Hs IH Hall]; [constructor|].
  rewrite filter_cons. destruct (decide (P h)); [|done].
  constructor; [done|].
  apply Forall_forall. intros h' [_ Hin]%list_elem_of_filter.
  rewrite Forall_forall in Hall. by apply Hall.
Qed.

Lemma rank_lt_same_rank hits h1 h2 :
  StronglySorted rank_lt hits →
  h1 ∈ hits → h2 ∈ hits → h1.1.1 = h2.1.1 → h1 = h2.
Proof.
  induction 1 as [|h hits Hs IH Hall]; intros H1 H2 Heq.
  - by apply elem_of_nil in H1.
  - rewrite Forall_forall in Hall. unfold rank_lt in Hall.
    apply elem_of_cons in H1 as [->|H1];
      apply elem_of_cons in H2 as [->|H2]; [done| | |by apply IH].
    + specialize (Hall _ H2). lia.
    + specialize (Hall _ H1). lia.
Qed.

Section MoreFetcherFacts.
Context {World : Type}.
Variable lower : string → string.
Variable strip : string → string.
Variable search :
  string → string → Z → Z → World → option (list string) * World.
Variable session_get : string → Z → World → option Response * World.
Variable BeautifulSoup : string → Bs4.Soup.
Implicit Types (entries : gmap string AgentEntry.t) (w : World).
Implicit Types (hits : list (Z * string * string)).

Local Abbreviation loop :=
  (fetch_loop lower strip session_get BeautifulSoup).
Local Abbreviation trace :=
  (classified lower strip session_get BeautifulSoup).
Local Abbreviation fetch :=
  (fetch_agents_for_query lower strip search session_get BeautifulSoup).
Local Abbreviation hits_in :=
  (hits_of lower strip search session_get BeautifulSoup).

(** Every classified result is an admitted item with a non-empty agent-like
    title. *)
Lemma classified_admissible items w h :
  h ∈ trace items w →
  h.1 ∈ items ∧
  is_banned_url lower h.1.2 = false ∧
  looks_like_agent lower h.2 = true ∧
  h.2 ≠ EmptyString.
Proof.
  revert w. induction items as [|[rank url] rest IH]; intros w; simpl.
  - intros Hin. by apply elem_of_nil in Hin.
  - assert (∀ w', h ∈ trace rest w' →
              h.1 ∈ (rank, url) :: rest ∧
              is_banned_url lower h.1.2 = false ∧
              looks_like_agent lower h.2 = true ∧ h.2 ≠ EmptyString)
      as Hrest.
    { intros w' Hin. destruct (IH _ Hin) as (? & ? & ? & ?).
      split_and!; [by right|done..]. }
    destruct (is_banned_url lower url) eqn:Hban; [apply Hrest|].
    destruct (try_fetch session_get url w) as [[resp|] w']; [|apply Hrest].
    destruct (extract_meta_title strip BeautifulSoup (text resp))
      as [[|c title]|]; [apply Hrest| |apply Hrest].
    destruct (looks_like_agent lower (String c title)) eqn:Hagent;
      [|apply Hrest].
    intros [->|Hin]%elem_of_cons; [|exact (Hrest _ Hin)].
    simpl. split_and!; [by left|done..].
Qed.

Lemma classified_length items w :
  (length (trace items w) ≤ length items)%nat.
Proof.
  revert w. induction items as [|[rank url] rest IH]; intros w; simpl;
    [done|].
  assert (∀ w', (length (trace rest w') ≤ S (length rest))%nat) as Hrest.
  { intros w'. specialize (IH w'). lia. }
  destruct (is_banned_url lower url); [apply Hrest|].
  destruct (try_fetch session_get url w) as [[resp|] w']; [|apply Hrest].
  destruct (extract_meta_title strip BeautifulSoup (text resp))
    as [[|c title]|]; [apply Hrest| |apply Hrest].
  destruct (looks_like_agent lower (String c title)); [|apply Hrest].
  simpl. specialize (IH w'). lia.
Qed.

(** Over an enumeration, the classified results come with strictly
    increasing ranks, none below the start. *)
Lemma classified_enumerate_sorted urls start w :
  Forall (λ h, start ≤ h.1.1) (trace (PyInt.enumerate start urls) w) ∧
  StronglySorted rank_lt (trace (PyInt.enumerate start urls) w).
Proof.
  revert start w. induction urls as [|url rest IH]; intros start w; simpl.
  - split; constructor.
  - assert (∀ w',
      Forall (λ h, start ≤ h.1.1)
        (trace (PyInt.enumerate (start + 1) rest) w') ∧
      StronglySorted rank_lt (trace (PyInt.enumerate (start + 1) rest) w'))
      as Hrest.
    { intros w'. destruct (IH (start + 1) w') as [Hlow Hs].
      split; [|done]. eapply Forall_impl; [exact Hlow|].
      simpl. intros; lia. }
    destruct (is_banned_url lower url); [apply Hrest|].
    destruct (try_fetch session_get url w) as [[resp|] w']; [|apply Hrest].
    destruct (extract_meta_title strip BeautifulSoup (text resp))
      as [[|c title]|]; [apply Hrest| |apply Hrest].
    destruct (looks_like_agent lower (String c title)); [|apply Hrest].
    destruct (IH (start + 1) w') as [Hlow Hs]. split.
    + constructor; [simpl; lia|].
      eapply Forall_impl; [exact Hlow|]. simpl. intros; lia.
    + constructor; [done|].
      eapply Forall_impl; [exact Hlow|]. unfold rank_lt. simpl. intros; lia.
Qed.

Lemma hits_in_sorted query max_results w :
  StronglySorted rank_lt (hits_in query max_results w).
Proof.
  unfold hits_of.
  destruct (get_search_results search query max_results w) as [urls w'].
  apply classified_enumerate_sorted.
Qed.

(** Among the classified results of one title, the first has the least
    rank. *)
Lemma first_rank_is_least query max_results w key h later :
  hits_for lower key (hits_in query max_results w) = h :: later →
  fold_left Z.min (ranks_of later) h.1.1 = h.1.1.
Proof.
  intros Heq.
  pose proof (rank_lt_filter (λ h, lower h.2 = key) _
                (hits_in_sorted query max_results w)) as Hs.
  fold (hits_for lower key (hits_in query max_results w)) in Hs.
  rewrite Heq in Hs. apply fold_min_above.
  apply StronglySorted_cons in Hs as [Hall _].
  unfold ranks_of. apply Forall_fmap.
  eapply Forall_impl; [exact Hall|]. unfold rank_lt. simpl. intros; lia.
Qed.

(** The stored entry is the first classified result of its title, rank
    included. *)
Lemma fetch_lookup_first query max_results w key :
  (fetch query max_results w).1 !! key =
  (λ h, AgentEntry.mk h.2 h.1.2 h.1.1)
    <$> head (hits_for lower key (hits_in query max_results w)).
Proof.
  rewrite fetch_agents_for_query_hits, upsert_all_empty_lookup.
  destruct (hits_for lower key _) as [|h later] eqn:Heq; [done|].
  simpl. do 2 f_equal. by eapply first_rank_is_least.
Qed.

Lemma fetch_lookup_hit query max_results w key e :
  (fetch query max_results w).1 !! key = Some e →
  ∃ h, h ∈ hits_in query max_results w ∧ lower h.2 = key ∧
       e = AgentEntry.mk h.2 h.1.2 h.1.1.
Proof.
  rewrite fetch_lookup_first.
  destruct (hits_for lower key _) as [|h later] eqn:E; [done|].
  intros [= <-]. exists h.
  assert (h ∈ hits_for lower key (hits_in query max_results w)) as Hin
    by (rewrite E; by left).
  apply list_elem_of_filter in Hin as [Hk Hin]. done.
Qed.

End MoreFetcherFacts.

Section FetcherProperties.
Context {World : Type}.
Variable lower : string → string.
Variable strip : string → string.
Variable search :
  string → string → Z → Z → World → option (list string) * World.
Variable session_get : string → Z → World → option Response * World.
Variable BeautifulSoup : string → Bs4.Soup.
Implicit Types (entries : gmap string AgentEntry.t) (w : World).
Implicit Types (hits : list (Z * string * string)).

Local Abbreviation loop :=
  (fetch_loop lower strip session_get BeautifulSoup).
Local Abbreviation trace :=
  (classified lower strip session_get BeautifulSoup).
Local Abbreviation fetch :=
  (fetch_agents_for_query lower strip search session_get BeautifulSoup).
Local Abbreviation hits_in :=
  (hits_of lower strip search session_get BeautifulSoup).

Lemma hits_in_admissible query max_results w h :
  h ∈ hits_in query max_results w →
  is_banned_url lower h.1.2 = false ∧
  looks_like_agent lower h.2 = true ∧
  h.2 ≠ EmptyString.
Proof.
  unfold hits_of.
  destruct (get_search_results search query max_results w) as [urls w'].
  intros Hin.
  by destruct (classified_admissible lower strip session_get BeautifulSoup
                 _ _ _ Hin) as (_ & ? & ? & ?).
Qed.

(** X7. Every entry of a query's dictionary is stored under the lower-cased
    form of its name, its url is not banned, and its name is a non-empty
    agent-like title. *)
Theorem stored_entries_are_admissible query max_results w key e :
  (fetch query max_results w).1 !! key = Some e →
  key = lower (AgentEntry.name e) ∧
  is_banned_url lower (AgentEntry.url e) = false ∧
  looks_like_agent lower (AgentEntry.name e) = true ∧
  AgentEntry.name e ≠ EmptyString.
Proof.
  intros (h & Hin & Hk & ->)%fetch_lookup_hit.
  destruct (hits_in_admissible _ _ _ _ Hin) as (? & ? & ?).
  simpl. done.
Qed.

(** X8. Inside one query the ranks only grow, so the rank update never
    changes a stored entry: the entry under a key is the first classified
    result with that lower-cased title, with the rank of that result. *)
Theorem first_occurrence_is_kept query max_results w key :
  (fetch query max_results w).1 !! key =
  (λ h, AgentEntry.mk h.2 h.1.2 h.1.1)
    <$> head (hits_for lower key (hits_in query max_results w)).
Proof.
  rewrite fetch_agents_for_query_hits, upsert_all_empty_lookup.
  destruct (hits_for lower key (hits_in query max_results w))
    as [|first later] eqn:Hseen; [done|].
  simpl. do 2 f_equal.
  by apply (first_rank_is_least lower strip search session_get
              BeautifulSoup query max_results w key).
Qed.

(** X9. Two entries of one query's dictionary never have the same rank:
    entries with equal ranks are stored under the same key. *)
Theorem ranks_are_distinct query max_results w k1 k2 e1 e2 :
  (fetch query max_results w).1 !! k1 = Some e1 →
  (fetch query max_results w).1 !! k2 = Some e2 →
  AgentEntry.rank e1 = AgentEntry.rank e2 →
  k1 = k2.
Proof.
  intros (h1 & Hin1 & Hk1 & ->)%fetch_lookup_hit
         (h2 & Hin2 & Hk2 & ->)%fetch_lookup_hit Heq.
  simpl in Heq.
  assert (h1 = h2) as ->; [|congruence].
  eapply rank_lt_same_rank; [|done..]. apply hits_in_sorted.
Qed.

Lemma upsert_size entries title url rank :
  (size (upsert lower entries title url rank) ≤ S (size entries))%nat.
Proof.
  unfold upsert. destruct (entries !! lower title) as [e|] eqn:He.
  - rewrite map_size_insert_Some by done. lia.
  - by rewrite map_size_insert_None.
Qed.

Lemma upsert_all_size hits entries :
  (size (upsert_all lower entries hits) ≤ size entries + length hits)%nat.
Proof.
  revert entries. induction hits as [|h hits IH]; intros entries.
  - simpl. lia.
  - rewrite upsert_all_cons. etrans; [apply IH|].
    pose proof (upsert_size entries h.2 h.1.2 h.1.1). simpl. lia.
Qed.

Lemma enumerate_length {A} (l : list A) start :
  length (PyInt.enumerate start l) = length l.
Proof.
  revert start. induction l as [|x l IH]; intros start; simpl; [done|].
  by rewrite IH.
Qed.

(** X10. A query's dictionary has at most as many entries as the search
    returned results, and every stored rank lies between 1 and the number
    of results; in particular it is empty when the search returns
    nothing. *)
Theorem dictionary_within_results query max_results w :
  let raw := (get_search_results search query max_results w).1 in
  (size (fetch query max_results w).1 ≤ length raw)%nat ∧
  (∀ key e, (fetch query max_results w).1 !! key = Some e →
            1 ≤ AgentEntry.rank e ≤ Z.of_nat (length raw)) ∧
  (raw = [] → (fetch query max_results w).1 = ∅).
Proof.
  assert ((size (fetch query max_results w).1 ≤
           length (get_search_results search query max_results w).1)%nat)
    as Hsize.
  { rewrite fetch_agents_for_query_hits. unfold hits_of.
    destruct (get_search_results search query max_results w) as [urls w'].
    etrans; [apply upsert_all_size|]. rewrite map_size_empty. simpl.
    etrans; [apply classified_length|]. by rewrite enumerate_length. }
  simpl. split_and!.
  - exact Hsize.
  - unfold fetch_agents_for_query.
    destruct (get_search_results search query max_results w) as [urls w'].
    simpl. intros key e He.
    assert (positioned urls (Z.of_nat (length urls))
              (loop (PyInt.enumerate 1 urls) ∅ w').1) as Hp.
    { apply (fetch_loop_positioned lower strip session_get BeautifulSoup
               urls [] urls ∅ w' eq_refl).
      intros k e'. by rewrite lookup_empty. }
    by destruct (Hp key e He).
  - intros Hraw. rewrite Hraw in Hsize. simpl in Hsize.
    apply map_size_empty_inv. lia.
Qed.





End FetcherProperties.

(** ** Aggregator, continued *)

Lemma min_by_fold {A} (key : A → Z) (rest : list A) (x0 : A) :
  let r := fold_left (λ best e, if key e <? key best then e else best)
             rest x0 in
  ∃ i : nat,
    (x0 :: rest) !! i = Some r ∧
    (∀ y, y ∈ x0 :: rest → key r ≤ key y) ∧
    (∀ (j : nat) y, (j < i)%nat → (x0 :: rest) !! j = Some y →
                    key r < key y).
Proof.
  induction rest as [|z rest IH] using rev_ind; simpl.
  - exists 0%nat. split_and!; [done| |lia].
    intros y ->%list_elem_of_singleton. lia.
  - rewrite fold_left_app. simpl. simpl in IH.
    destruct IH as (i & Hi & Hmin & Hfirst).
    set (r := fold_left (λ best e, if key e <? key best then e else best)
                rest x0) in *.
    change (x0 :: rest ++ [z]) with ((x0 :: rest) ++ [z]).
    destruct (key z <? key r) eqn:E.
    + apply Z.ltb_lt in E. exists (length (x0 :: rest)). split_and!.
      * by rewrite list_lookup_middle.
      * intros y [Hy|Hy%list_elem_of_singleton]%elem_of_app;
          [|subst y; lia].
        specialize (Hmin y Hy). lia.
      * intros j y Hj Hy. rewrite lookup_app_l in Hy by done.
        apply list_elem_of_lookup_2 in Hy. specialize (Hmin y Hy). lia.
    + apply Z.ltb_ge in E. exists i.
      assert (i < length (x0 :: rest))%nat as Hlt
        by (apply lookup_lt_is_Some; by eexists).
      split_and!.
      * by rewrite lookup_app_l.
      * intros y [Hy|Hy%list_elem_of_singleton]%elem_of_app;
          [|by subst y].
        by apply Hmin.
      * intros j y Hj Hy. rewrite lookup_app_l in Hy by lia.
        by eapply Hfirst.
Qed.

Lemma min_by_first {A} (key : A → Z) (l : list A) (x : A) :
  PyInt.min_by key l = Some x →
  ∃ i : nat,
    l !! i = Some x ∧
    (∀ y, y ∈ l → key x ≤ key y) ∧
    (∀ (j : nat) y, (j < i)%nat → l !! j = Some y → key x < key y).
Proof.
  destruct l as [|x0 rest]; simpl; [done|].
  intros [= <-]. apply min_by_fold.
Qed.

Lemma entries_for_cons key (qr : gmap string AgentEntry.t)
    (rest : list (gmap string AgentEntry.t)) :
  entries_for key (qr :: rest) =
  match qr !! key with
  | Some e => e :: entries_for key rest
  | None => entries_for key rest
  end.
Proof. unfold entries_for. simpl. by destruct (qr !! key). Qed.

Lemma total_of_present penalty key
    (query_results : list (gmap string AgentEntry.t)) :
  total_of (query_value penalty key <$> query_results) =
  total_of (AgentEntry.rank <$> entries_for key query_results)
  + penalty * (Z.of_nat (length query_results)
               - queries_containing key query_results).
Proof.
  induction query_results as [|qr rest IH].
  - unfold queries_containing. simpl. lia.
  - rewrite queries_containing_cons, entries_for_cons, fmap_cons.
    cbn [total_of]. rewrite IH.
    replace (Z.of_nat (length (qr :: rest)))
      with (Z.of_nat (length rest) + 1) by (simpl; lia).
    unfold query_value.
    destruct (qr !! key) as [e|]; [rewrite fmap_cons; cbn [total_of]|]; lia.
Qed.

Lemma entries_for_length key
    (query_results : list (gmap string AgentEntry.t)) :
  Z.of_nat (length (entries_for key query_results)) =
  queries_containing key query_results.
Proof.
  induction query_results as [|qr rest IH].
  - done.
  - rewrite queries_containing_cons, entries_for_cons.
    destruct (qr !! key) as [e|]; simpl length; lia.
Qed.

Lemma elem_of_query_values penalty key
    (query_results : list (gmap string AgentEntry.t)) v :
  v ∈ query_value penalty key <$> query_results ↔
  v ∈ AgentEntry.rank <$> entries_for key query_results ∨
  (v = penalty ∧ ∃ qr, qr ∈ query_results ∧ qr !! key = None).
Proof.
  unfold entries_for. rewrite !list_elem_of_fmap. split.
  - intros (qr & -> & Hqr). unfold query_value.
    destruct (qr !! key) as [e|] eqn:He.
    + left. exists e. split; [done|]. apply list_elem_of_omap. eauto.
    + right. eauto.
  - intros [(e & -> & He)|(-> & qr & Hqr & Hnone)].
    + apply list_elem_of_omap in He as (qr & Hqr & He).
      exists qr. split; [|done]. unfold query_value. by rewrite He.
    + exists qr. split; [|done]. unfold query_value. by rewrite Hnone.
Qed.

Lemma missing_query key (query_results : list (gmap string AgentEntry.t)) :
  queries_containing key query_results < Z.of_nat (length query_results) →
  ∃ qr, qr ∈ query_results ∧ qr !! key = None.
Proof.
  induction query_results as [|qr rest IH].
  - unfold queries_containing. simpl. lia.
  - rewrite queries_containing_cons. simpl length.
    destruct (qr !! key) as [e|] eqn:He.
    + intros Hlt. destruct IH as (qr' & Hin & Hnone); [lia|].
      exists qr'. split; [by right|done].
    + intros _. exists qr. split; [by left|done].
Qed.

Lemma insert_by_stable {A} (key : A → Z) (k : Z) x l :
  filter (λ a, key a = k) (PyInt.insert_by key x l) =
  filter (λ a, key a = k) (x :: l).
Proof.
  induction l as [|y l IH]; simpl; [done|].
  destruct (key x <=? key y) eqn:E; [done|].
  apply Z.leb_gt in E.
  rewrite (filter_cons _ y), IH, !(filter_cons _ x), (filter_cons _ y).
  destruct (decide (key y = k)), (decide (key x = k)); try done. lia.
Qed.

Lemma sorted_stable {A} (key : A → Z) (k : Z) l :
  filter (λ a, key a = k) (PyInt.sorted key l) = filter (λ a, key a = k) l.
Proof.
  induction l as [|x l IH]; simpl; [done|].
  by rewrite insert_by_stable, !filter_cons, IH.
Qed.

Lemma NoDup_fmap_eq {A B} (f : A → B) (l : list A) x y :
  NoDup (f <$> l) → x ∈ l → y ∈ l → f x = f y → x = y.
Proof.
  induction l as [|z l IH]; intros Hnd Hx Hy Heq.
  - by apply elem_of_nil in Hx.
  - rewrite fmap_cons in Hnd. apply NoDup_cons in Hnd as [Hz Hnd].
    apply elem_of_cons in Hx as [->|Hx];
      apply elem_of_cons in Hy as [->|Hy]; [done| | |by apply IH].
    + destruct Hz. rewrite Heq. apply list_elem_of_fmap. eauto.
    + destruct Hz. rewrite <- Heq. apply list_elem_of_fmap. eauto.
Qed.

Lemma mapM_omap {A B} (f : A → option B) (l : list A) (k : list B) :
  mapM f l = Some k → omap f l = k.
Proof.
  revert k. induction l as [|x l IH]; intros k; simpl.
  - by intros [= <-].
  - destruct (f x) as [y|]; simpl; [|done].
    destruct (mapM f l) as [k'|]; simpl; [|done].
    intros [= <-]. f_equal. by apply IH.
Qed.

Lemma aggregate_key_representative
    (query_results : list (gmap string AgentEntry.t)) penalty key a :
  aggregate_key query_results penalty key = Some a →
  ∃ (i : nat) e,
    entries_for key query_results !! i = Some e ∧
    AggregatedEntry.name a = AgentEntry.name e ∧
    AggregatedEntry.url a = AgentEntry.url e ∧
    (∀ e', e' ∈ entries_for key query_results →
           AgentEntry.rank e ≤ AgentEntry.rank e') ∧
    (∀ (j : nat) e', (j < i)%nat →
       entries_for key query_results !! j = Some e' →
       AgentEntry.rank e < AgentEntry.rank e').
Proof.
  unfold aggregate_key. rewrite collect_ranks_spec. simpl.
  destruct (PyInt.min _) as [best|]; simpl; [|done].
  destruct (PyInt.max _) as [worst|]; simpl; [|done].
  fold (entries_for key query_results).
  destruct (PyInt.min_by _ _) as [best_entry|] eqn:Hby; simpl; [|done].
  intros [= <-]. simpl.
  destruct (min_by_first _ _ _ Hby) as (i & Hi & Hmin & Hfirst).
  exists i, best_entry. done.
Qed.

(** The entry built for a key carries the scores of that key and the name
    and url of an entry stored under it. *)
Lemma aggregate_key_tied
    (query_results : list (gmap string AgentEntry.t)) penalty key a :
  aggregate_key query_results penalty key = Some a →
  scored query_results penalty key a ∧
  ∃ e, e ∈ entries_for key query_results ∧
       AggregatedEntry.name a = AgentEntry.name e ∧
       AggregatedEntry.url a = AgentEntry.url e.
Proof.
  intros Hkey. split.
  - by apply aggregate_key_Some in Hkey as [? _].
  - destruct (aggregate_key_representative _ _ _ _ Hkey)
      as (i & e & Hi & Hname & Hurl & _).
    exists e. split_and!; [|done..]. by eapply list_elem_of_lookup_2.
Qed.

Section AggregatorProperties.
Variable set_iter : gset string → list string.
Implicit Types (query_results : list (gmap string AgentEntry.t)).

Lemma aggregate_entries_members query_results penalty :
  iterates set_iter →
  ∃ aggregated,
    mapM (aggregate_key query_results penalty)
      (set_iter (all_keys query_results)) = Some aggregated ∧
    aggregate_entries set_iter query_results penalty =
      Some (PyInt.sorted AggregatedEntry.total_score aggregated) ∧
    ∀ a, a ∈ PyInt.sorted AggregatedEntry.total_score aggregated →
         ∃ key, key ∈ all_keys query_results ∧
                aggregate_key query_results penalty key = Some a.
Proof.
  intros Hit.
  destruct (aggregate_entries_unsorted set_iter query_results penalty)
    as (aggregated & Hout & Hall).
  { intros key. by rewrite iterates_elem_of. }
  exists aggregated. split_and!; [by apply mapM_Some|done|].
  intros a Hin. rewrite PyIntFacts.sorted_perm in Hin.
  apply list_elem_of_lookup in Hin as [i Hi].
  destruct (Forall2_lookup_r _ _ _ _ _ Hall Hi) as (key & Hkey & Ha).
  exists key. split; [|done].
  apply list_elem_of_lookup_2 in Hkey. by apply iterates_elem_of in Hkey.
Qed.

(** X12. The name and url of an aggregated entry are those of the stored
    entry with the least rank among the queries that have the name; when
    several queries tie on that rank, the earliest query gives them. *)
Theorem representative_has_least_rank query_results penalty :
  iterates set_iter →
  ∃ out,
    aggregate_entries set_iter query_results penalty = Some out ∧
    ∀ a, a ∈ out →
      ∃ key (i : nat) e,
        scored query_results penalty key a ∧
        entries_for key query_results !! i = Some e ∧
        AggregatedEntry.name a = AgentEntry.name e ∧
        AggregatedEntry.url a = AgentEntry.url e ∧
        (∀ e', e' ∈ entries_for key query_results →
               AgentEntry.rank e ≤ AgentEntry.rank e') ∧
        (∀ (j : nat) e', (j < i)%nat →
           entries_for key query_results !! j = Some e' →
           AgentEntry.rank e < AgentEntry.rank e').
Proof.
  intros Hit.
  destruct (aggregate_entries_members query_results penalty Hit)
    as (aggregated & _ & Hout & Hmem).
  eexists. split; [exact Hout|]. intros a Ha.
  destruct (Hmem a Ha) as (key & _ & Hkey).
  destruct (aggregate_key_representative _ _ _ _ Hkey) as (i & e & Hrep).
  exists key, i, e. split; [|exact Hrep].
  by apply aggregate_key_Some in Hkey as [? _].
Qed.

(** X13. The score of an entry splits into the ranks actually stored for
    its name and one penalty for each query that lacks the name: the entry
    is the scored entry of a key, carries the name and url of an entry
    stored under that key, counts the entries stored under it, and totals
    their ranks plus the penalties. *)
Theorem total_score_splits query_results penalty :
  iterates set_iter →
  ∃ out,
    aggregate_entries set_iter query_results penalty = Some out ∧
    ∀ a, a ∈ out →
      ∃ key e,
        scored query_results penalty key a ∧
        e ∈ entries_for key query_results ∧
        AggregatedEntry.name a = AgentEntry.name e ∧
        AggregatedEntry.url a = AgentEntry.url e ∧
        AggregatedEntry.appearance_count a =
          Z.of_nat (length (entries_for key query_results)) ∧
        AggregatedEntry.total_score a =
          total_of (AgentEntry.rank <$> entries_for key query_results)
          + penalty * (Z.of_nat (length query_results)
                       - AggregatedEntry.appearance_count a).
Proof.
  intros Hit.
  destruct (aggregate_entries_members query_results penalty Hit)
    as (aggregated & _ & Hout & Hmem).
  eexists. split; [exact Hout|]. intros a Ha.
  destruct (Hmem a Ha) as (key & Hin & Hkey).
  destruct (aggregate_key_tied _ _ _ _ Hkey)
    as [Hscored (e & He & Hname & Hurl)].
  pose proof Hscored as (Htotal & _ & _ & Hcount).
  exists key, e. split_and!; [done..| |].
  - by rewrite Hcount, entries_for_length.
  - by rewrite Htotal, Hcount, total_of_present.
Qed.

Lemma scored_under_high_penalty query_results penalty key a :
  (∀ qr key e, qr ∈ query_results → qr !! key = Some e →
               AgentEntry.rank e ≤ penalty) →
  aggregate_key query_results penalty key = Some a →
  least_of (AggregatedEntry.best_rank a)
    (AgentEntry.rank <$> entries_for key query_results) ∧
  AggregatedEntry.worst_rank a ≤ penalty ∧
  (AggregatedEntry.appearance_count a < Z.of_nat (length query_results) →
   AggregatedEntry.worst_rank a = penalty).
Proof.
  intros Hpen Hkey.
  apply aggregate_key_Some in Hkey
    as [(_ & [Hbin Hbest] & [Hwin Hworst] & Hcount) (qr0 & Hqr0 & [e0 He0])].
  assert (∀ r, r ∈ AgentEntry.rank <$> entries_for key query_results →
               r ≤ penalty) as Hstored.
  { intros r (e & -> & He)%list_elem_of_fmap.
    apply list_elem_of_omap in He as (qr & Hqr & He). by eapply Hpen. }
  assert (AgentEntry.rank e0
            ∈ AgentEntry.rank <$> entries_for key query_results) as Hr0.
  { apply list_elem_of_fmap. exists e0. split; [done|].
    apply list_elem_of_omap. eauto. }
  split_and!.
  - split.
    + apply elem_of_query_values in Hbin as [?|[Hb _]]; [done|].
      assert (AggregatedEntry.best_rank a ≤ AgentEntry.rank e0) as Hle.
      { apply Hbest, elem_of_query_values. by left. }
      specialize (Hstored _ Hr0).
      replace (AggregatedEntry.best_rank a) with (AgentEntry.rank e0)
        by lia.
      done.
    + intros r Hr. apply Hbest, elem_of_query_values. by left.
  - apply elem_of_query_values in Hwin as [?|[-> _]]; [by apply Hstored|done].
  - intros Hlt. rewrite Hcount in Hlt.
    apply missing_query in Hlt as (qr & Hqr & Hnone).
    assert (penalty ≤ AggregatedEntry.worst_rank a) as Hge.
    { apply Hworst, elem_of_query_values. right. eauto. }
    apply elem_of_query_values in Hwin as [Hw|[-> _]]; [|done].
    specialize (Hstored _ Hw). lia.
Qed.

(** X14. When the penalty is at least every stored rank, the best rank of
    an entry is the least rank stored for its name (never the penalty
    alone), the worst rank is at most the penalty, and it is the penalty
    as soon as one query lacks the name; the entry is the scored entry of
    the key and carries the name and url of an entry stored under it. *)
Theorem penalty_above_ranks query_results penalty :
  iterates set_iter →
  (∀ qr key e, qr ∈ query_results → qr !! key = Some e →
               AgentEntry.rank e ≤ penalty) →
  ∃ out,
    aggregate_entries set_iter query_results penalty = Some out ∧
    ∀ a, a ∈ out →
      ∃ key e,
        scored query_results penalty key a ∧
        e ∈ entries_for key query_results ∧
        AggregatedEntry.name a = AgentEntry.name e ∧
        AggregatedEntry.url a = AgentEntry.url e ∧
        least_of (AggregatedEntry.best_rank a)
          (AgentEntry.rank <$> entries_for key query_results) ∧
        AggregatedEntry.worst_rank a ≤ penalty ∧
        (AggregatedEntry.appearance_count a
           < Z.of_nat (length query_results) →
         AggregatedEntry.worst_rank a = penalty).
Proof.
  intros Hit Hpen.
  destruct (aggregate_entries_members query_results penalty Hit)
    as (aggregated & _ & Hout & Hmem).
  eexists. split; [exact Hout|]. intros a Ha.
  destruct (Hmem a Ha) as (key & Hin & Hkey).
  destruct (aggregate_key_tied _ _ _ _ Hkey)
    as [Hscored (e & He & Hname & Hurl)].
  destruct (scored_under_high_penalty _ _ _ _ Hpen Hkey)
    as (Hbest & Hworst & Hmiss).
  exists key, e. done.
Qed.

(** X15. The result has exactly one entry per distinct name, and it is
    empty exactly when every dictionary is empty. *)
Theorem one_entry_per_name query_results penalty :
  iterates set_iter →
  ∃ out,
    aggregate_entries set_iter query_results penalty = Some out ∧
    length out = size (all_keys query_results) ∧
    (out = [] ↔ ∀ qr, qr ∈ query_results → qr = ∅).
Proof.
  intros Hit.
  destruct (aggregate_entries_unsorted set_iter query_results penalty)
    as (aggregated & Hout & Hall).
  { intros key. by rewrite iterates_elem_of. }
  assert (length (PyInt.sorted AggregatedEntry.total_score aggregated)
          = size (all_keys query_results)) as Hlen.
  { rewrite PyIntFacts.sorted_perm.
    rewrite <- (Forall2_length _ _ _ Hall), (Hit _). done. }
  eexists. split_and!; [exact Hout|exact Hlen|].
  rewrite <- length_zero_iff_nil, Hlen, size_empty_iff.
  rewrite elem_of_equiv_empty. split.
  - intros Hnone qr Hqr. apply map_empty. intros key.
    destruct (qr !! key) as [e|] eqn:He; [|done].
    destruct (Hnone key). apply elem_of_all_keys. eauto.
  - intros Hempty key (qr & Hqr & Hs)%elem_of_all_keys.
    rewrite (Hempty qr Hqr), lookup_empty in Hs. by destruct Hs.
Qed.

(** X16. The sort is stable: entries with the same score come out in the
    order in which the loop produced them, that is in the iteration order
    of the key set. *)
Theorem ties_keep_iteration_order query_results penalty :
  iterates set_iter →
  ∃ aggregated out,
    mapM (aggregate_key query_results penalty)
      (set_iter (all_keys query_results)) = Some aggregated ∧
    aggregate_entries set_iter query_results penalty = Some out ∧
    ∀ score,
      filter (λ a, AggregatedEntry.total_score a = score) out =
      filter (λ a, AggregatedEntry.total_score a = score) aggregated.
Proof.
  intros Hit.
  destruct (aggregate_entries_members query_results penalty Hit)
    as (aggregated & Hm & Hout & _).
  exists aggregated. eexists. split_and!; [exact Hm|exact Hout|].
  intros score. apply sorted_stable.
Qed.

End AggregatorProperties.

(** X17. The iteration order of the key set matters for ties only: two
    iteration orders give the same entries, and the very same list when no
    two entries have the same score. *)
Theorem iteration_order_only_breaks_ties
    (iter1 iter2 : gset string → list string)
    (query_results : list (gmap string AgentEntry.t)) (penalty : Z) :
  iterates iter1 → iterates iter2 →
  ∃ out1 out2,
    aggregate_entries iter1 query_results penalty = Some out1 ∧
    aggregate_entries iter2 query_results penalty = Some out2 ∧
    out1 ≡ₚ out2 ∧
    (NoDup (AggregatedEntry.total_score <$> out1) → out1 = out2).
Proof.
  intros Hit1 Hit2.
  destruct (aggregate_entries_members iter1 query_results penalty Hit1)
    as (agg1 & Hm1 & Hout1 & _).
  destruct (aggregate_entries_members iter2 query_results penalty Hit2)
    as (agg2 & Hm2 & Hout2 & _).
  apply mapM_omap in Hm1, Hm2.
  assert (agg1 ≡ₚ agg2) as Hperm.
  { rewrite <- Hm1, <- Hm2.
    by rewrite (Hit1 (all_keys query_results)),
               (Hit2 (all_keys query_results)). }
  assert (PyInt.sorted AggregatedEntry.total_score agg1 ≡ₚ
          PyInt.sorted AggregatedEntry.total_score agg2) as Hperm'
    by by rewrite !PyIntFacts.sorted_perm.
  do 2 eexists. split_and!; [exact Hout1|exact Hout2|exact Hperm'|].
  intros Hnd.
  apply (StronglySorted_unique_strong
           (key_le AggregatedEntry.total_score));
    [|apply PyIntFacts.sorted_sorted..|exact Hperm'].
  intros x1 x2 H1 H2 Hle1 Hle2. unfold key_le in *.
  rewrite <- Hperm' in H2.
  eapply NoDup_fmap_eq; [exact Hnd|done..|lia].
Qed.

Lemma total_of_perm (l1 l2 : list Z) : l1 ≡ₚ l2 → total_of l1 = total_of l2.
Proof. induction 1; simpl; lia. Qed.

Lemma least_of_perm m1 m2 (l1 l2 : list Z) :
  l1 ≡ₚ l2 → least_of m1 l1 → least_of m2 l2 → m1 = m2.
Proof.
  intros Hperm [Hin1 Hle1] [Hin2 Hle2].
  rewrite Hperm in Hin1. rewrite <- Hperm in Hin2.
  specialize (Hle1 _ Hin2). specialize (Hle2 _ Hin1). lia.
Qed.

Lemma greatest_of_perm m1 m2 (l1 l2 : list Z) :
  l1 ≡ₚ l2 → greatest_of m1 l1 → greatest_of m2 l2 → m1 = m2.
Proof.
  intros Hperm [Hin1 Hle1] [Hin2 Hle2].
  rewrite Hperm in Hin1. rewrite <- Hperm in Hin2.
  specialize (Hle1 _ Hin2). specialize (Hle2 _ Hin1). lia.
Qed.

Lemma scored_perm (qrs1 qrs2 : list (gmap string AgentEntry.t))
    penalty key a1 a2 :
  qrs1 ≡ₚ qrs2 →
  scored qrs1 penalty key a1 → scored qrs2 penalty key a2 →
  scores_of a1 = scores_of a2.
Proof.
  intros Hperm (Ht1 & Hb1 & Hw1 & Hc1) (Ht2 & Hb2 & Hw2 & Hc2).
  assert (query_value penalty key <$> qrs1 ≡ₚ
          query_value penalty key <$> qrs2) as Hvals by by rewrite Hperm.
  unfold scores_of.
  rewrite Ht1, Ht2, (total_of_perm _ _ Hvals).
  rewrite (least_of_perm _ _ _ _ Hvals Hb1 Hb2).
  rewrite (greatest_of_perm _ _ _ _ Hvals Hw1 Hw2).
  rewrite Hc1, Hc2. unfold queries_containing. by rewrite Hperm.
Qed.

(** X18. The order in which the queries are listed does not change the
    scores: for every entry obtained from a list of dictionaries, any
    rearrangement of that list yields an entry with the same total score,
    best rank, worst rank and appearance count. *)
Theorem query_order_keeps_scores (set_iter : gset string → list string)
    (qrs1 qrs2 : list (gmap string AgentEntry.t)) (penalty : Z) :
  iterates set_iter →
  qrs1 ≡ₚ qrs2 →
  ∃ out1 out2,
    aggregate_entries set_iter qrs1 penalty = Some out1 ∧
    aggregate_entries set_iter qrs2 penalty = Some out2 ∧
    length out1 = length out2 ∧
    ∀ a1, a1 ∈ out1 → ∃ a2, a2 ∈ out2 ∧ scores_of a1 = scores_of a2.
Proof.
  intros Hit Hperm.
  destruct (aggregate_entries_members set_iter qrs1 penalty Hit)
    as (agg1 & _ & Hout1 & Hmem1).
  destruct (aggregate_entries_unsorted set_iter qrs2 penalty)
    as (agg2 & Hout2 & Hall2).
  { intros key. by rewrite iterates_elem_of. }
  assert (all_keys qrs1 = all_keys qrs2) as Hkeys.
  { apply set_eq. intros key. rewrite !elem_of_all_keys.
    by setoid_rewrite Hperm. }
  do 2 eexists. split_and!; [exact Hout1|exact Hout2| |].
  - destruct (aggregate_entries_unsorted set_iter qrs1 penalty)
      as (agg1' & Hout1' & Hall1).
    { intros key. by rewrite iterates_elem_of. }
    rewrite Hout1 in Hout1'. injection Hout1' as Heq.
    rewrite Heq, !PyIntFacts.sorted_perm.
    rewrite <- (Forall2_length _ _ _ Hall1), <- (Forall2_length _ _ _ Hall2).
    by rewrite Hkeys.
  - intros a1 Ha1. destruct (Hmem1 a1 Ha1) as (key & Hkey & Hagg1).
    rewrite Hkeys in Hkey. apply (iterates_elem_of set_iter) in Hkey;
      [|done].
    apply list_elem_of_lookup in Hkey as [i Hi].
    destruct (Forall2_lookup_l _ _ _ _ _ Hall2 Hi) as (a2 & Ha2 & Hagg2).
    exists a2. split.
    + rewrite PyIntFacts.sorted_perm. by eapply list_elem_of_lookup_2.
    + apply aggregate_key_Some in Hagg1 as [Hs1 _].
      apply aggregate_key_Some in Hagg2 as [Hs2 _].
      by eapply scored_perm.
Qed.

(** ** Reporting and the whole run *)

Lemma enumerate_length_any {A} (l : list A) start :
  length (PyInt.enumerate start l) = length l.
Proof.
  revert start. induction l as [|x l IH]; intros start; simpl; [done|].
  by rewrite IH.
Qed.

(** X19. With a non-negative [top], the report lists the first [top]
    entries of the ranked list (all of them when there are fewer), numbered
    from 1, and the count printed in the header is the number of rows. *)
Theorem report_lists_the_first_entries top aggregated :
  0 ≤ top →
  report_rows top aggregated =
    PyInt.enumerate 1 (take (Z.to_nat top) aggregated) ∧
  Z.of_nat (length (report_rows top aggregated)) =
    report_count top aggregated.
Proof.
  intros Htop. unfold report_rows, report_count, PyList.slice_to.
  destruct (Z.min top (Z.of_nat (length aggregated)) <? 0) eqn:E;
    [apply Z.ltb_lt in E; lia|].
  rewrite Z.min_l by lia.
  assert (take (Z.to_nat (Z.min top (Z.of_nat (length aggregated))))
            aggregated = take (Z.to_nat top) aggregated) as Htake.
  { destruct (decide (top ≤ Z.of_nat (length aggregated))).
    - by rewrite Z.min_l.
    - rewrite Z.min_r by lia. rewrite Nat2Z.id.
      rewrite !take_ge; [done|lia|lia]. }
  rewrite Htake. split; [done|].
  rewrite enumerate_length_any, length_take. lia.
Qed.

(** X20. With a negative [top], the header prints that negative count
    while the rows are the ranked list without its last [-top] entries. *)
Theorem report_with_negative_top top aggregated :
  top < 0 →
  report_count top aggregated = top ∧
  report_rows top aggregated =
    PyInt.enumerate 1
      (take (length aggregated - Z.to_nat (- top)) aggregated).
Proof.
  intros Htop. unfold report_rows, report_count, PyList.slice_to.
  rewrite Z.min_l by lia. split; [done|].
  destruct (top <? 0) eqn:E; [|apply Z.ltb_ge in E; lia].
  do 2 f_equal. lia.
Qed.

Lemma total_of_bounds (lo hi : Z) (l : list Z) :
  (∀ v, v ∈ l → lo ≤ v ≤ hi) →
  lo * Z.of_nat (length l) ≤ total_of l ≤ hi * Z.of_nat (length l).
Proof.
  induction l as [|x l IH]; intros Hall; simpl.
  - lia.
  - assert (lo ≤ x ≤ hi) by (apply Hall; by left).
    assert (lo * Z.of_nat (length l) ≤ total_of l ≤ hi * Z.of_nat (length l))
      by (apply IH; intros v Hv; apply Hall; by right).
    lia.
Qed.

Section RunProperties.
Context {World : Type}.
Variable lower : string → string.
Variable strip : string → string.
Variable set_iter : gset string → list string.
Variable search :
  string → string → Z → Z → World → option (list string) * World.
Variable session_get : string → Z → World → option Response * World.
Variable BeautifulSoup : string → Bs4.Soup.

Local Abbreviation fetch :=
  (fetch_agents_for_query lower strip search session_get BeautifulSoup).
Local Abbreviation fetch_every :=
  (fetch_all lower strip search session_get BeautifulSoup).
Local Abbreviation run :=
  (main_aggregated lower strip set_iter search session_get BeautifulSoup).

Lemma fetch_ranks_within_limit query results w key e :
  honours_limit search results →
  (fetch query results w).1 !! key = Some e →
  1 ≤ AgentEntry.rank e ≤ results.
Proof.
  intros Hlimit. unfold fetch_agents_for_query, get_search_results.
  destruct (search query "us" results 2 w) as [[urls|] w'] eqn:Hs.
  - intros He.
    assert (positioned urls (Z.of_nat (length urls))
              (fetch_loop lower strip session_get BeautifulSoup
                 (PyInt.enumerate 1 urls) ∅ w').1) as Hp.
    { apply (fetch_loop_positioned lower strip session_get BeautifulSoup
               urls [] urls ∅ w' eq_refl).
      intros k e'. by rewrite lookup_empty. }
    destruct (Hp key e He) as [Hr _].
    pose proof (Hlimit _ _ _ _ Hs). lia.
  - simpl. by rewrite lookup_empty.
Qed.

Lemma fetch_all_within_limit qs results w :
  honours_limit search results →
  length (fetch_every qs results w).1 = length qs ∧
  ∀ qr key e, qr ∈ (fetch_every qs results w).1 → qr !! key = Some e →
              1 ≤ AgentEntry.rank e ≤ results.
Proof.
  intros Hlimit. revert w. induction qs as [|q rest IH]; intros w; simpl.
  - split; [done|]. intros qr key e Hin. by apply elem_of_nil in Hin.
  - pose proof (fetch_ranks_within_limit q results w) as Hq.
    destruct (fetch q results w) as [qr0 w1]. simpl in Hq.
    destruct (IH w1) as [Hlen Hrest].
    destruct (fetch_every rest results w1) as [qrs w2]. simpl in *.
    split; [by rewrite Hlen|].
    intros qr key e [->|Hin]%elem_of_cons He; [by eapply Hq|].
    by eapply Hrest.
Qed.

(** X21. In a run whose search provider returns at most the requested
    number of results, every reported entry has a best rank that is a real
    rank between 1 and [results], a worst rank of at most [results + 1]
    (exactly that when some query lacks the name), between 1 and 8
    appearances, and a total score between 8 and
    [8 * (results + 1)] minus its appearances. *)
Theorem run_scores_within_bounds area results w :
  iterates set_iter →
  honours_limit search results →
  ∃ out,
    (run area results w).1 = Some out ∧
    ∀ a, a ∈ out →
      1 ≤ AggregatedEntry.best_rank a ≤ results ∧
      AggregatedEntry.best_rank a ≤ AggregatedEntry.worst_rank a
        ≤ results + 1 ∧
      1 ≤ AggregatedEntry.appearance_count a ≤ 8 ∧
      (AggregatedEntry.appearance_count a < 8 →
       AggregatedEntry.worst_rank a = results + 1) ∧
      8 ≤ AggregatedEntry.total_score a
        ≤ 8 * (results + 1) - AggregatedEntry.appearance_count a.
Proof.
  intros Hit Hlimit. unfold main_aggregated.
  destruct (fetch_all_within_limit (queries (strip area)) results w Hlimit)
    as [Hlen Hranks].
  destruct (fetch_every (queries (strip area)) results w)
    as [query_results w'].
  simpl in *.
  destruct (aggregate_entries_members set_iter query_results (results + 1)
              Hit) as (aggregated & _ & Hout & Hmem).
  eexists. split; [exact Hout|]. intros a Ha.
  destruct (Hmem a Ha) as (key & _ & Hkey).
  assert (∀ qr key e, qr ∈ query_results → qr !! key = Some e →
                      AgentEntry.rank e ≤ results + 1) as Hpen.
  { intros qr k e Hqr He. specialize (Hranks qr k e Hqr He). lia. }
  destruct (scored_under_high_penalty _ _ _ _ Hpen Hkey)
    as ([Hbin Hbest] & Hworst & Hmiss).
  assert (∀ r, r ∈ AgentEntry.rank <$> entries_for key query_results →
               1 ≤ r ≤ results) as Hstored.
  { intros r (e & -> & He)%list_elem_of_fmap.
    apply list_elem_of_omap in He as (qr & Hqr & He). by eapply Hranks. }
  apply aggregate_key_Some in Hkey
    as [(Htotal & [_ Hleast] & [Hwin _] & Hcount) Hpresent].
  pose proof (queries_containing_bounds key query_results) as Hcb.
  apply queries_containing_pos in Hpresent.
  rewrite Hlen in Hcb, Hmiss. simpl in Hcb, Hmiss.
  pose proof (total_of_bounds 1 results _ Hstored) as Hsum.
  rewrite length_fmap, entries_for_length in Hsum.
  rewrite total_of_present, Hlen in Htotal. simpl in Htotal.
  specialize (Hstored _ Hbin).
  split_and!; try lia.
  - by apply Hleast.
  - rewrite Htotal. nia.
Qed.

End RunProperties.

(** ** The further properties on the samples *)

Lemma stored_entries_are_admissible_witness :
  let e := AgentEntry.mk "Jane Doe Team" "https://janedoe.example/" 2 in
  "jane doe team" = PyStr.ascii_lower (AgentEntry.name e) ∧
  is_banned_url PyStr.ascii_lower (AgentEntry.url e) = false ∧
  looks_like_agent PyStr.ascii_lower (AgentEntry.name e) = true ∧
  AgentEntry.name e ≠ EmptyString.
Proof.
  intros e.
  apply (stored_entries_are_admissible PyStr.ascii_lower PyStr.ascii_strip
           Demo.search Demo.session_get Demo.BeautifulSoup
           "best realtors in springfield" 50 0%nat "jane doe team" e).
  vm_compute. reflexivity.
Defined.

Lemma ranks_are_distinct_witness :
  (Demo.fetch "best realtors in springfield" 50 0%nat).1 !! "jane doe team"
    = Some (AgentEntry.mk "Jane Doe Team" "https://janedoe.example/" 2) ∧
  "jane doe team" = "jane doe team".
Proof.
  assert ((Demo.fetch "best realtors in springfield" 50 0%nat).1
            !! "jane doe team"
          = Some (AgentEntry.mk "Jane Doe Team" "https://janedoe.example/" 2))
    as H by (vm_compute; reflexivity).
  split; [exact H|].
  exact (ranks_are_distinct PyStr.ascii_lower PyStr.ascii_strip
           Demo.search Demo.session_get Demo.BeautifulSoup
           "best realtors in springfield" 50 0%nat
           "jane doe team" "jane doe team" _ _ H H eq_refl).
Defined.

Lemma representative_has_least_rank_witness :
  iterates elements ∧
  ∃ out,
    aggregate_entries elements three_queries 51 = Some out ∧
    ∀ a, a ∈ out →
      ∃ key (i : nat) e,
        scored three_queries 51 key a ∧
        entries_for key three_queries !! i = Some e ∧
        AggregatedEntry.name a = AgentEntry.name e ∧
        AggregatedEntry.url a = AgentEntry.url e ∧
        (∀ e', e' ∈ entries_for key three_queries →
               AgentEntry.rank e ≤ AgentEntry.rank e') ∧
        (∀ (j : nat) e', (j < i)%nat →
           entries_for key three_queries !! j = Some e' →
           AgentEntry.rank e < AgentEntry.rank e').
Proof.
  split; [exact iterates_elements|].
  exact (representative_has_least_rank elements three_queries 51
           iterates_elements).
Defined.

Lemma total_score_splits_witness :
  iterates elements ∧
  ∃ out,
    aggregate_entries elements three_queries 51 = Some out ∧
    ∀ a, a ∈ out →
      ∃ key e,
        scored three_queries 51 key a ∧
        e ∈ entries_for key three_queries ∧
        AggregatedEntry.name a = AgentEntry.name e ∧
        AggregatedEntry.url a = AgentEntry.url e ∧
        AggregatedEntry.appearance_count a =
          Z.of_nat (length (entries_for key three_queries)) ∧
        AggregatedEntry.total_score a =
          total_of (AgentEntry.rank <$> entries_for key three_queries)
          + 51 * (Z.of_nat (length three_queries)
                  - AggregatedEntry.appearance_count a).
Proof.
  split; [exact iterates_elements|].
  exact (total_score_splits elements three_queries 51 iterates_elements).
Defined.

Lemma three_queries_ranks (qr : gmap string AgentEntry.t) key e :
  qr ∈ three_queries → qr !! key = Some e → AgentEntry.rank e ≤ 51.
Proof.
  unfold three_queries. intros Hqr He.
  repeat (apply elem_of_cons in Hqr as [->|Hqr]);
    [| |
     |by apply elem_of_nil in Hqr].
  - apply lookup_singleton_Some in He as [_ <-]. simpl. lia.
  - by rewrite lookup_empty in He.
  - apply lookup_singleton_Some in He as [_ <-]. simpl. lia.
Qed.

Lemma penalty_above_ranks_witness :
  ∃ out,
    aggregate_entries elements three_queries 51 = Some out ∧
    ∀ a, a ∈ out →
      ∃ key e,
        scored three_queries 51 key a ∧
        e ∈ entries_for key three_queries ∧
        AggregatedEntry.name a = AgentEntry.name e ∧
        AggregatedEntry.url a = AgentEntry.url e ∧
        least_of (AggregatedEntry.best_rank a)
          (AgentEntry.rank <$> entries_for key three_queries) ∧
        AggregatedEntry.worst_rank a ≤ 51 ∧
        (AggregatedEntry.appearance_count a
           < Z.of_nat (length three_queries) →
         AggregatedEntry.worst_rank a = 51).
Proof.
  exact (penalty_above_ranks elements three_queries 51 iterates_elements
           three_queries_ranks).
Defined.

Lemma one_entry_per_name_witness :
  iterates elements ∧
  ∃ out,
    aggregate_entries elements two_names 51 = Some out ∧
    length out = size (all_keys two_names) ∧
    (out = [] ↔ ∀ qr, qr ∈ two_names → qr = ∅).
Proof.
  split; [exact iterates_elements|].
  exact (one_entry_per_name elements two_names 51 iterates_elements).
Defined.

Lemma ties_keep_iteration_order_witness :
  iterates elements ∧
  ∃ aggregated out,
    mapM (aggregate_key two_names 51) (elements (all_keys two_names))
      = Some aggregated ∧
    aggregate_entries elements two_names 51 = Some out ∧
    ∀ score,
      filter (λ a, AggregatedEntry.total_score a = score) out =
      filter (λ a, AggregatedEntry.total_score a = score) aggregated.
Proof.
  split; [exact iterates_elements|].
  exact (ties_keep_iteration_order elements two_names 51 iterates_elements).
Defined.

Lemma iteration_order_only_breaks_ties_witness :
  ∃ out1 out2,
    aggregate_entries elements two_names 51 = Some out1 ∧
    aggregate_entries (λ X, reverse (elements X)) two_names 51 = Some out2 ∧
    out1 ≡ₚ out2 ∧
    (NoDup (AggregatedEntry.total_score <$> out1) → out1 = out2).
Proof.
  exact (iteration_order_only_breaks_ties elements
           (λ X, reverse (elements X)) two_names 51
           iterates_elements iterates_reverse).
Defined.

Lemma query_order_keeps_scores_witness :
  two_names ≡ₚ reverse two_names ∧
  ∃ out1 out2,
    aggregate_entries elements two_names 51 = Some out1 ∧
    aggregate_entries elements (reverse two_names) 51 = Some out2 ∧
    length out1 = length out2 ∧
    ∀ a1, a1 ∈ out1 → ∃ a2, a2 ∈ out2 ∧ scores_of a1 = scores_of a2.
Proof.
  assert (two_names ≡ₚ reverse two_names) as H
    by (symmetry; apply reverse_Permutation).
  split; [exact H|].
  exact (query_order_keeps_scores elements two_names (reverse two_names) 51
           iterates_elements H).
Defined.

Lemma report_lists_the_first_entries_witness :
  let aggregated :=
    [ AggregatedEntry.mk "Jane Doe Team" "https://janedoe.example/" 40 20 20 2;
      AggregatedEntry.mk "Smith Realty" "https://smith.example/" 55 4 51 1 ] in
  0 ≤ 1 ∧
  report_rows 1 aggregated = PyInt.enumerate 1 (take (Z.to_nat 1) aggregated) ∧
  Z.of_nat (length (report_rows 1 aggregated)) = report_count 1 aggregated.
Proof.
  intros aggregated.
  assert (0 ≤ 1) as H by lia.
  split; [exact H|].
  exact (report_lists_the_first_entries 1 aggregated H).
Defined.

Lemma report_with_negative_top_witness :
  let aggregated :=
    [ AggregatedEntry.mk "Jane Doe Team" "https://janedoe.example/" 40 20 20 2;
      AggregatedEntry.mk "Smith Realty" "https://smith.example/" 55 4 51 1 ] in
  -1 < 0 ∧
  report_count (-1) aggregated = -1 ∧
  report_rows (-1) aggregated =
    PyInt.enumerate 1
      (take (length aggregated - Z.to_nat (- -1)) aggregated).
Proof.
  intros aggregated.
  assert (-1 < 0) as H by lia.
  split; [exact H|].
  exact (report_with_negative_top (-1) aggregated H).
Defined.

Example report_negative_top_rows :
  report_rows (-1)
    [ AggregatedEntry.mk "Jane Doe Team" "https://janedoe.example/" 40 20 20 2;
      AggregatedEntry.mk "Smith Realty" "https://smith.example/" 55 4 51 1 ]
  = [ (1, AggregatedEntry.mk "Jane Doe Team" "https://janedoe.example/"
            40 20 20 2) ].
Proof. reflexivity. Qed.

Lemma demo_search_honours_limit : honours_limit Demo.search 50.
Proof.
  intros query w urls w'. unfold Demo.search.
  destruct (decide (query = "best realtors in springfield")); [|done].
  intros [= <- _]. simpl. lia.
Qed.

Lemma run_scores_within_bounds_witness :
  ∃ out,
    (Demo.run "springfield" 50 0%nat).1 = Some out ∧
    ∀ a, a ∈ out →
      1 ≤ AggregatedEntry.best_rank a ≤ 50 ∧
      AggregatedEntry.best_rank a ≤ AggregatedEntry.worst_rank a ≤ 50 + 1 ∧
      1 ≤ AggregatedEntry.appearance_count a ≤ 8 ∧
      (AggregatedEntry.appearance_count a < 8 →
       AggregatedEntry.worst_rank a = 50 + 1) ∧
      8 ≤ AggregatedEntry.total_score a
        ≤ 8 * (50 + 1) - AggregatedEntry.appearance_count a.
Proof.
  exact (run_scores_within_bounds PyStr.ascii_lower PyStr.ascii_strip
           elements Demo.search Demo.session_get Demo.BeautifulSoup
           "springfield" 50 0%nat iterates_elements
           demo_search_honours_limit).
Defined.

Lemma dictionary_within_results_witness :
  let raw :=
    (get_search_results Demo.search "best realtors in springfield" 50
       0%nat).1 in
  (size (Demo.fetch "best realtors in springfield" 50 0%nat).1
     ≤ length raw)%nat ∧
  (∀ key e,
     (Demo.fetch "best realtors in springfield" 50 0%nat).1 !! key = Some e →
     1 ≤ AgentEntry.rank e ≤ Z.of_nat (length raw)) ∧
  (raw = [] → (Demo.fetch "best realtors in springfield" 50 0%nat).1 = ∅).
Proof.
  exact (dictionary_within_results PyStr.ascii_lower PyStr.ascii_strip
           Demo.search Demo.session_get Demo.BeautifulSoup
           "best realtors in springfield" 50 0%nat).
Defined.

Example demo_requests :
  (Demo.fetch "best realtors in springfield" 50 0%nat).2 =
  session_after Demo.session_get
    [ "https://janedoe.example/"; "https://down.example/";
      "https://listings.example/"; "https://janedoe.example/team";
      "https://gone.example/" ] 1%nat.
Proof. vm_compute. reflexivity. Qed.

(** ** Page classifier: only the first Open-Graph title counts *)

(** C6 fails as stated: a page can hold a non-empty Open-Graph title and a
    non-empty title element and still not get the Open-Graph value, when
    an earlier Open-Graph title tag has no content: only the first tag in
    document order is looked at. *)
Lemma og_title_behind_empty_one :
  Bs4.Tag "meta" {[ "property" := "og:title"; "content" := "Jane Doe Team" ]}
    [] ∈ two_og_parser html_two_og ∧
  Bs4.Tag "title" ∅ [Bs4.NavigableString "Welcome"]
    ∈ two_og_parser html_two_og ∧
  extract_meta_title PyStr.ascii_strip two_og_parser html_two_og
    = Some "Welcome" ∧
  extract_meta_title PyStr.ascii_strip two_og_parser html_two_og
    ≠ Some "Jane Doe Team".
Proof.
  assert (extract_meta_title PyStr.ascii_strip two_og_parser html_two_og
          = Some "Welcome") as Hrun by (vm_compute; reflexivity).
  split_and!.
  - vm_compute. right. left.
  - vm_compute. do 2 right. left.
  - exact Hrun.
  - rewrite Hrun. discriminate.
Qed.

(** ** The parser's exception *)

Section RaisingFacts.
Context {World : Type}.
Variable lower : string → string.
Variable strip : string → string.
Variable set_iter : gset string → list string.
Variable search :
  string → string → Z → Z → World → option (list string) * World.
Variable session_get : string → Z → World → option Response * World.
Variable parse : string → option Bs4.Soup.

Local Abbreviation raising_loop :=
  (Raising.fetch_loop lower strip session_get parse).
Local Abbreviation raising_fetch :=
  (Raising.fetch_agents_for_query lower strip search session_get parse).
Local Abbreviation raising_fetch_every :=
  (Raising.fetch_all lower strip search session_get parse).
Local Abbreviation raising_run :=
  (Raising.main_aggregated lower strip set_iter search session_get parse).

(** A failing search gives the query an empty dictionary and no
    exception, whatever the parser does. *)
Lemma raising_search_failure query max_results w w' :
  search query "us" max_results 2 w = (None, w') →
  raising_fetch query max_results w = (Some ∅, w').
Proof.
  intros Hs. unfold Raising.fetch_agents_for_query, get_search_results.
  by rewrite Hs.
Qed.

(** A page that the parser rejects ends the loop with the exception, even
    though the request for it succeeded. *)
Lemma raising_loop_rejected rank url rest entries w resp w' :
  is_banned_url lower url = false →
  try_fetch session_get url w = (Some resp, w') →
  parse (text resp) = None →
  raising_loop ((rank, url) :: rest) entries w = (None, w').
Proof.
  intros Hban Hget Hparse. simpl. rewrite Hban, Hget.
  unfold Raising.extract_meta_title. by rewrite Hparse.
Qed.

Section Accepting.
Variable BeautifulSoup : string → Bs4.Soup.
Hypothesis accepts : ∀ html, parse html = Some (BeautifulSoup html).






End Accepting.

Lemma raising_fetch_all_failing qs results w :
  (∀ query w0, (search query "us" results 2 w0).1 = None) →
  ∃ query_results,
    (raising_fetch_every qs results w).1 = Some query_results ∧
    ∀ qr, qr ∈ query_results → qr = ∅.
Proof.
  intros Hfail. revert w. induction qs as [|q rest IH]; intros w; simpl.
  - exists []. split; [done|]. intros qr Hin. by apply elem_of_nil in Hin.
  - destruct (search q "us" results 2 w) as [o w1] eqn:Hs.
    pose proof (Hfail q w) as Hq. rewrite Hs in Hq. simpl in Hq. subst o.
    rewrite (raising_search_failure q results w w1 Hs).
    destruct (IH w1) as (qrs & Hqrs & Hempty).
    destruct (raising_fetch_every rest results w1) as [[qrs'|] w2];
      simpl in Hqrs; [|done].
    injection Hqrs as ->. exists (∅ :: qrs). split; [done|].
    intros qr [->|Hin]%elem_of_cons; [done|]. by apply Hempty.
Qed.


(** X23. When every search fails, the run returns the empty list, even
    with a parser that would reject every page: no page is requested or
    parsed. *)
Theorem failed_searches_give_an_empty_list area results w :
  iterates set_iter →
  (∀ query w0, (search query "us" results 2 w0).1 = None) →
  (raising_run area results w).1 = Some [].
Proof.
  intros Hit Hfail. unfold Raising.main_aggregated.
  destruct (raising_fetch_all_failing (queries (strip area)) results w Hfail)
    as (query_results & Hqrs & Hempty).
  destruct (raising_fetch_every (queries (strip area)) results w)
    as [[qrs|] w']; simpl in Hqrs; [|done].
  injection Hqrs as ->. simpl. by apply aggregate_entries_no_names.
Qed.

End RaisingFacts.

(** C8, where the code departs from it.  The search for the first query
    succeeds and every request succeeds, but the second result is a page
    that the parser rejects: the exception leaves the query loop and the
    run, and no ranked list is produced. *)
Theorem parser_rejection_aborts_the_run :
  (Rejecting.search "best realtors in springfield" "us" 50 2 0%nat).1
    = Some [ "https://janedoe.example/"; "https://broken.example/";
             "https://janedoe.example/team" ] ∧
  (Rejecting.session_get "https://broken.example/" 10 2%nat).1
    = Some {| status_code := 200; text := Rejecting.html_rejected |} ∧
  Rejecting.BeautifulSoup Rejecting.html_rejected = None ∧
  (Rejecting.fetch "best realtors in springfield" 50 0%nat).1 = None ∧
  (Rejecting.run "springfield" 50 0%nat).1 = None.
Proof. split_and!; vm_compute; reflexivity. Qed.



Example run_accepting_result :
  (Rejecting.run_accepting "springfield" 50 0%nat).1 =
  Some [ AggregatedEntry.mk "Jane Doe Team" "https://janedoe.example/"
           359 2 51 1 ].
Proof. vm_compute. reflexivity. Qed.

Lemma search_down_always_fails (query : string) (w0 : nat) :
  (Rejecting.search_down query "us" 50 2 w0).1 = None.
Proof. reflexivity. Qed.

Lemma failed_searches_give_an_empty_list_witness :
  (Rejecting.run_search_down "springfield" 50 0%nat).1 = Some [].
Proof.
  exact (failed_searches_give_an_empty_list PyStr.ascii_lower
           PyStr.ascii_strip elements Rejecting.search_down
           Rejecting.session_get Rejecting.BeautifulSoup
           "springfield" 50 0%nat iterates_elements
           search_down_always_fails).
Defined.
